(** * temp_led_plus_module: CPU temperature LED driver

    A shallow embedding of [03_Driver_Lesson/temp_led_plus_module.c]: the
    module's global variables form one record, every entry point of the
    driver (timer callbacks, character device, proc file, sysfs attributes,
    module init) is a function on that record, and what the kernel decides
    (sensor readings, the current [jiffies], the reach of a user pointer, the
    result of a registration call) is an explicit argument. *)

From Stdlib Require Import ZArith List String Ascii Strings.Byte Bool Lia DecimalString.
Import ListNotations.
Local Open Scope Z_scope.

(** ** C integer types of the target (32-bit ARM, "Linux raspberrypi 5.10.103+") *)

Module CInt.

Definition int_bits : Z := 32.
Definition long_bits : Z := 32.

(** Conversion to [int]: wrap into [-2^31, 2^31). *)
Definition to_int (z : Z) : Z :=
  (z + 2 ^ (int_bits - 1)) mod 2 ^ int_bits - 2 ^ (int_bits - 1).

(** Conversion to [size_t] / [unsigned long]: wrap into [0, 2^32). *)
Definition to_size_t (z : Z) : Z := z mod 2 ^ long_bits.

(** Conversion to [ssize_t] / [long]. *)
Definition to_ssize_t (z : Z) : Z :=
  (z + 2 ^ (long_bits - 1)) mod 2 ^ long_bits - 2 ^ (long_bits - 1).

Definition INT_MAX : Z := 2 ^ (int_bits - 1) - 1.

(** [temp / 1000] and [temp % 1000] truncate toward zero in C. *)
Definition c_div (a b : Z) : Z := Z.quot a b.
Definition c_mod (a b : Z) : Z := Z.rem a b.

End CInt.
Import CInt.

(** errno values used by the driver *)
Definition EFAULT : Z := 14.
Definition EBUSY : Z := 16.
Definition EINVAL : Z := 22.
Definition ENOMEM : Z := 12.

(** ** Text *)

Definition nl : string := String (ascii_of_nat 10) EmptyString.

(** [%d] of printf. *)
Definition fmt_d (z : Z) : string := NilZero.string_of_int (Z.to_int z).

(** ** Constants of the module *)

Definition BUFFER_SIZE : Z := 1024.
Definition PROC_BUFFER_SIZE : Z := 1024.
Definition TIMEOUT : Z := 5000.

Definition GPIO_5 : Z := 5.    (* RED *)
Definition GPIO_6 : Z := 6.    (* YELLOW *)
Definition GPIO_26 : Z := 26.  (* GREEN *)

Inductive gpio_flags := GPIOF_OUT_INIT_HIGH.

Record gpio := mkGpio {
  gpio_nr : Z;
  gpio_fl : gpio_flags;
  gpio_label : string
}.

Definition led_array : list gpio :=
  [ mkGpio GPIO_5 GPIOF_OUT_INIT_HIGH "LED_5";
    mkGpio GPIO_6 GPIOF_OUT_INIT_HIGH "LED_6";
    mkGpio GPIO_26 GPIOF_OUT_INIT_HIGH "LED_26" ].

(** [led_array[i]]; [None] when [i] is outside the array (undefined in C). *)
Definition led_array_at (i : Z) : option gpio :=
  if i <? 0 then None else nth_error led_array (Z.to_nat i).

(** ** Kernel objects the driver acquires and releases *)

Inductive attr := to_temp_green_attr | to_temp_yellow_attr | to_temp_red_attr.
Inductive kobj := kernel_kobj | chrdev_kobj.

Inductive resource :=
| ChrdevRegion
| Cdev
| DevClass
| DevNode
| Kobject
| SysfsFile (parent : kobj) (a : attr)
| ProcFolder
| ProcFile
| GpioLines.

Inductive kevent :=
| Acquire (r : resource)
| Release (r : resource).

(** ** The module's globals, with the kernel-side effects the driver causes *)

Record driver := mkDriver {
  is_open : Z;
  data_size : Z;
  data_buffer : list byte;            (* unsigned char [BUFFER_SIZE] *)
  procfs_buffer : list byte;          (* char [PROC_BUFFER_SIZE] *)
  procfs_buffer_size : Z;
  temp : Z;
  to_temp_green : Z;
  to_temp_yellow : Z;
  to_temp_red : Z;
  gpio_index : Z;
  flag_timer : bool;
  timer_blink : option Z;             (* expiry in jiffies when pending *)
  timer_thermal : option Z;
  gpio_writes : list (Z * Z);         (* (line, value), most recent first *)
  klog : list string;                 (* pr_err lines, most recent first *)
  kevents : list kevent               (* most recent first *)
}.

(** The module image as loaded: static storage is zero unless initialised. *)
Definition module_image : driver :=
  {| is_open := 0;
     data_size := 0;
     data_buffer := repeat x00 (Z.to_nat BUFFER_SIZE);
     procfs_buffer := repeat x00 (Z.to_nat PROC_BUFFER_SIZE);
     procfs_buffer_size := 0;
     temp := 0;
     to_temp_green := 40000;
     to_temp_yellow := 60000;
     to_temp_red := 75000;
     gpio_index := 0;
     flag_timer := false;
     timer_blink := None;
     timer_thermal := None;
     gpio_writes := [];
     klog := [];
     kevents := [] |}.

(** Assignments to single globals. *)
Definition set_is_open (v : Z) (d : driver) : driver :=
  mkDriver v (data_size d) (data_buffer d) (procfs_buffer d)
    (procfs_buffer_size d) (temp d) (to_temp_green d) (to_temp_yellow d)
    (to_temp_red d) (gpio_index d) (flag_timer d) (timer_blink d)
    (timer_thermal d) (gpio_writes d) (klog d) (kevents d).

Definition set_data_size (v : Z) (d : driver) : driver :=
  mkDriver (is_open d) v (data_buffer d) (procfs_buffer d)
    (procfs_buffer_size d) (temp d) (to_temp_green d) (to_temp_yellow d)
    (to_temp_red d) (gpio_index d) (flag_timer d) (timer_blink d)
    (timer_thermal d) (gpio_writes d) (klog d) (kevents d).

Definition set_data_buffer (v : list byte) (d : driver) : driver :=
  mkDriver (is_open d) (data_size d) v (procfs_buffer d)
    (procfs_buffer_size d) (temp d) (to_temp_green d) (to_temp_yellow d)
    (to_temp_red d) (gpio_index d) (flag_timer d) (timer_blink d)
    (timer_thermal d) (gpio_writes d) (klog d) (kevents d).

Definition set_procfs_buffer (v : list byte) (d : driver) : driver :=
  mkDriver (is_open d) (data_size d) (data_buffer d) v
    (procfs_buffer_size d) (temp d) (to_temp_green d) (to_temp_yellow d)
    (to_temp_red d) (gpio_index d) (flag_timer d) (timer_blink d)
    (timer_thermal d) (gpio_writes d) (klog d) (kevents d).

Definition set_procfs_buffer_size (v : Z) (d : driver) : driver :=
  mkDriver (is_open d) (data_size d) (data_buffer d) (procfs_buffer d)
    v (temp d) (to_temp_green d) (to_temp_yellow d)
    (to_temp_red d) (gpio_index d) (flag_timer d) (timer_blink d)
    (timer_thermal d) (gpio_writes d) (klog d) (kevents d).

Definition set_temp (v : Z) (d : driver) : driver :=
  mkDriver (is_open d) (data_size d) (data_buffer d) (procfs_buffer d)
    (procfs_buffer_size d) v (to_temp_green d) (to_temp_yellow d)
    (to_temp_red d) (gpio_index d) (flag_timer d) (timer_blink d)
    (timer_thermal d) (gpio_writes d) (klog d) (kevents d).

Definition set_to_temp_green (v : Z) (d : driver) : driver :=
  mkDriver (is_open d) (data_size d) (data_buffer d) (procfs_buffer d)
    (procfs_buffer_size d) (temp d) v (to_temp_yellow d)
    (to_temp_red d) (gpio_index d) (flag_timer d) (timer_blink d)
    (timer_thermal d) (gpio_writes d) (klog d) (kevents d).

Definition set_to_temp_yellow (v : Z) (d : driver) : driver :=
  mkDriver (is_open d) (data_size d) (data_buffer d) (procfs_buffer d)
    (procfs_buffer_size d) (temp d) (to_temp_green d) v
    (to_temp_red d) (gpio_index d) (flag_timer d) (timer_blink d)
    (timer_thermal d) (gpio_writes d) (klog d) (kevents d).

Definition set_to_temp_red (v : Z) (d : driver) : driver :=
  mkDriver (is_open d) (data_size d) (data_buffer d) (procfs_buffer d)
    (procfs_buffer_size d) (temp d) (to_temp_green d) (to_temp_yellow d)
    v (gpio_index d) (flag_timer d) (timer_blink d)
    (timer_thermal d) (gpio_writes d) (klog d) (kevents d).

Definition set_gpio_index (v : Z) (d : driver) : driver :=
  mkDriver (is_open d) (data_size d) (data_buffer d) (procfs_buffer d)
    (procfs_buffer_size d) (temp d) (to_temp_green d) (to_temp_yellow d)
    (to_temp_red d) v (flag_timer d) (timer_blink d)
    (timer_thermal d) (gpio_writes d) (klog d) (kevents d).

Definition set_flag_timer (v : bool) (d : driver) : driver :=
  mkDriver (is_open d) (data_size d) (data_buffer d) (procfs_buffer d)
    (procfs_buffer_size d) (temp d) (to_temp_green d) (to_temp_yellow d)
    (to_temp_red d) (gpio_index d) v (timer_blink d)
    (timer_thermal d) (gpio_writes d) (klog d) (kevents d).

Definition set_timer_blink (v : option Z) (d : driver) : driver :=
  mkDriver (is_open d) (data_size d) (data_buffer d) (procfs_buffer d)
    (procfs_buffer_size d) (temp d) (to_temp_green d) (to_temp_yellow d)
    (to_temp_red d) (gpio_index d) (flag_timer d) v
    (timer_thermal d) (gpio_writes d) (klog d) (kevents d).

Definition set_timer_thermal (v : option Z) (d : driver) : driver :=
  mkDriver (is_open d) (data_size d) (data_buffer d) (procfs_buffer d)
    (procfs_buffer_size d) (temp d) (to_temp_green d) (to_temp_yellow d)
    (to_temp_red d) (gpio_index d) (flag_timer d) (timer_blink d)
    v (gpio_writes d) (klog d) (kevents d).

Definition set_gpio_writes (v : list (Z * Z)) (d : driver) : driver :=
  mkDriver (is_open d) (data_size d) (data_buffer d) (procfs_buffer d)
    (procfs_buffer_size d) (temp d) (to_temp_green d) (to_temp_yellow d)
    (to_temp_red d) (gpio_index d) (flag_timer d) (timer_blink d)
    (timer_thermal d) v (klog d) (kevents d).

Definition set_klog (v : list string) (d : driver) : driver :=
  mkDriver (is_open d) (data_size d) (data_buffer d) (procfs_buffer d)
    (procfs_buffer_size d) (temp d) (to_temp_green d) (to_temp_yellow d)
    (to_temp_red d) (gpio_index d) (flag_timer d) (timer_blink d)
    (timer_thermal d) (gpio_writes d) v (kevents d).

Definition set_kevents (v : list kevent) (d : driver) : driver :=
  mkDriver (is_open d) (data_size d) (data_buffer d) (procfs_buffer d)
    (procfs_buffer_size d) (temp d) (to_temp_green d) (to_temp_yellow d)
    (to_temp_red d) (gpio_index d) (flag_timer d) (timer_blink d)
    (timer_thermal d) (gpio_writes d) (klog d) v.

(** Statements in sequence. *)
Notation "c1 ;; c2" := (fun d : driver => c2 (c1 d))
  (at level 61, left associativity, only parsing).

(** ** Kernel services, as far as the driver observes them *)

Definition gpio_set_value (line value : Z) (d : driver) : driver :=
  set_gpio_writes ((line, value) :: gpio_writes d) d.

(** The level a line was last driven to. *)
Definition gpio_level (line : Z) (d : driver) : option Z :=
  option_map snd (find (fun w => fst w =? line) (gpio_writes d)).

Definition pr_err (msg : string) (d : driver) : driver :=
  set_klog (msg :: klog d) d.

Definition kernel_call (e : kevent) (d : driver) : driver :=
  set_kevents (e :: kevents d) d.

(** [thermal_zone_get_temp(tz, &temp)]: the sensor answers with a reading,
    stored through the pointer with result 0, or with an error, in which case
    the result is a negative errno (the driver only tests it against zero) and
    nothing is stored. *)
Definition thermal_zone_get_temp (reading : option Z) (d : driver) : Z * driver :=
  match reading with
  | Some t => (0, set_temp t d)
  | None => (- EINVAL, d)
  end.

(** [copy_to_user(to, from, n)] where [writable] bytes can be stored at [to]:
    the number of bytes left uncopied, and the bytes that reached the user. *)
Definition copy_to_user (writable : Z) (from : list byte) (n : Z) : Z * list byte :=
  let k := Z.min n (Z.max 0 writable) in
  (n - k, firstn (Z.to_nat k) from).

(** [copy_from_user(to, from, n)] where [from] holds the bytes that can be
    loaded at the user pointer: the uncopied tail of the destination is
    zeroed. The result is the number of bytes left uncopied and the
    destination array afterwards. *)
Definition copy_from_user (to from : list byte) (n : Z) : Z * list byte :=
  let k := Z.min n (Z.of_nat (List.length from)) in
  (n - k,
   firstn (Z.to_nat k) from ++ repeat x00 (Z.to_nat (n - k)) ++ skipn (Z.to_nat n) to).

(** [sprintf(buf, ...)] of the text [s]: the text and its terminating NUL. *)
Definition sprintf (buf : list byte) (s : string) : list byte :=
  list_byte_of_string s ++ [x00] ++ skipn (S (String.length s)) buf.

(** ** Timer callbacks

    [msecs_to_jiffies] depends on the kernel's tick rate, which the module
    does not fix; the callbacks take it as given. [jiffies] is the tick
    counter at the firing, an [unsigned long]. *)

Section Timers.

Variable msecs_to_jiffies : Z -> Z.

Definition mod_timer_blink (expires : Z) (d : driver) : driver :=
  set_timer_blink (Some (to_size_t expires)) d.

Definition mod_timer_thermal (expires : Z) (d : driver) : driver :=
  set_timer_thermal (Some (to_size_t expires)) d.

(** [gpio_set_value(led_array[gpio_index].gpio, v)] *)
Definition gpio_set_active (value : Z) (d : driver) : option driver :=
  match led_array_at (gpio_index d) with
  | Some led => Some (gpio_set_value (gpio_nr led) value d)
  | None => None
  end.

Definition timer_blink_callback (jiffies : Z) (d : driver) : option driver :=
  let body :=
    if Bool.eqb (flag_timer d) false then
      option_map (mod_timer_blink (jiffies + msecs_to_jiffies 10))
                 (gpio_set_active 0 d)
    else
      option_map (mod_timer_blink (jiffies + msecs_to_jiffies 1))
                 (gpio_set_active 1 d) in
  option_map (fun d' => set_flag_timer (negb (flag_timer d')) d') body.

Definition thermal_callback (jiffies : Z) (reading : option Z) (d : driver) : driver :=
  let '(ret, d) := thermal_zone_get_temp reading d in
  let d :=
    if ret =? 0 then d
    else pr_err ("thermal_callback Failed to get temperature" ++ nl) d in
  let d :=
    if temp d <? to_temp_green d then
      (set_gpio_index 2 ;;
       gpio_set_value GPIO_5 0 ;; gpio_set_value GPIO_6 0 ;; gpio_set_value GPIO_26 1) d
    else if temp d <? to_temp_yellow d then
      (set_gpio_index 1 ;;
       gpio_set_value GPIO_5 0 ;; gpio_set_value GPIO_6 1 ;; gpio_set_value GPIO_26 0) d
    else if temp d <? to_temp_red d then
      (set_gpio_index 0 ;;
       gpio_set_value GPIO_5 1 ;; gpio_set_value GPIO_6 0 ;; gpio_set_value GPIO_26 0) d
    else
      (set_gpio_index 0 ;;
       gpio_set_value GPIO_5 1 ;; gpio_set_value GPIO_6 1 ;; gpio_set_value GPIO_26 1) d in
  mod_timer_thermal (jiffies + msecs_to_jiffies TIMEOUT) d.

End Timers.

(** ** Character device: the loopback buffer *)

Definition dev_open (d : driver) : Z * driver :=
  if negb (is_open d =? 0) then
    (- EBUSY, pr_err ("chrdev: already open" ++ nl) d)
  else
    (0, set_is_open 1 d).

Definition dev_release (d : driver) : Z * driver :=
  (0, set_is_open 0 d).

(** [dev_read(filep, buffer, len, offset)]: [writable] bytes can be stored at
    [buffer]. The result is the return value, the bytes that reached the user
    and the globals afterwards; [None] when the copy would run past the end
    of [data_buffer]. *)
Definition dev_read (writable : Z) (len : Z) (d : driver)
  : option (Z * list byte * driver) :=
  let len := if len >? to_size_t (data_size d) then to_size_t (data_size d) else len in
  if len >? BUFFER_SIZE then None
  else
    let '(rest, out) := copy_to_user writable (data_buffer d) len in
    let ret := to_int rest in
    if negb (ret =? 0) then
      Some (- EFAULT, out,
            pr_err ("chrdev: copy_to_user failed: " ++ fmt_d ret ++ nl) d)
    else
      Some (to_ssize_t len, out, set_data_size 0 d).

(** [dev_write(filep, buffer, len, offset)]: [buffer] holds the bytes that can
    be loaded at the user pointer. [None] when the copy would run past the end
    of [data_buffer]. *)
Definition dev_write (buffer : list byte) (len : Z) (d : driver)
  : option (Z * driver) :=
  let d := set_data_size (to_int len) d in
  let d := if data_size d >? BUFFER_SIZE then set_data_size BUFFER_SIZE d else d in
  let n := to_size_t (data_size d) in
  if n >? BUFFER_SIZE then None
  else
    let '(rest, to) := copy_from_user (data_buffer d) buffer n in
    let d := set_data_buffer to d in
    let ret := to_int rest in
    if negb (ret =? 0) then
      Some (- EFAULT,
            pr_err ("chrdev: copy_from_user failed: " ++ fmt_d ret ++ nl) d)
    else
      Some (data_size d, d).

(** ** Proc file: the temperature readout *)

Definition temperature_text (t : Z) : string :=
  "CPU temperature = " ++ fmt_d (c_div t 1000) ++ "." ++ fmt_d (c_mod t 1000)
    ++ " Grad" ++ nl.

(** [hello_read(file, buf, count, pos)]: [writable] bytes can be stored at
    [buf], [pos] is the file position ([loff_t]) on entry. The result is the
    return value, the bytes that reached the user, the file position
    afterwards and the globals; [None] when [procfs_buffer + *pos] lies
    outside [procfs_buffer]. *)
Definition hello_read (reading : option Z) (writable : Z) (count pos : Z) (d : driver)
  : option (Z * list byte * Z * driver) :=
  let '(ret, d) := thermal_zone_get_temp reading d in
  let d := if ret =? 0 then d else pr_err ("Failed to get temperature" ++ nl) d in
  let d := set_procfs_buffer_size (Z.min count PROC_BUFFER_SIZE) d in
  if pos >=? procfs_buffer_size d then Some (0, [], pos, d)
  else
    let d := set_procfs_buffer (sprintf (procfs_buffer d) (temperature_text (temp d))) d in
    let d :=
      if pos + procfs_buffer_size d >? PROC_BUFFER_SIZE
      then set_procfs_buffer_size (to_size_t (PROC_BUFFER_SIZE - pos)) d
      else d in
    if pos <? 0 then None
    else
      let '(rest, out) :=
        copy_to_user writable (skipn (Z.to_nat pos) (procfs_buffer d))
                     (procfs_buffer_size d) in
      if negb (rest =? 0) then Some (- EFAULT, out, pos, d)
      else Some (to_ssize_t (procfs_buffer_size d), out,
                 pos + procfs_buffer_size d, d).

(** ** Sysfs attributes: the three thresholds

    [sscanf(buf, "%d", &v)] either converts a number, which is stored, or
    converts nothing and stores nothing; [parsed] is that outcome. *)

Definition sysfs_show (v : Z) : Z * string :=
  let s := (fmt_d v ++ nl)%string in (Z.of_nat (String.length s), s).

Definition sysfs_green_show (d : driver) : Z * string := sysfs_show (to_temp_green d).
Definition sysfs_yellow_show (d : driver) : Z * string := sysfs_show (to_temp_yellow d).
Definition sysfs_red_show (d : driver) : Z * string := sysfs_show (to_temp_red d).

Definition sysfs_green_store (parsed : option Z) (count : Z) (d : driver) : Z * driver :=
  (count, match parsed with Some v => set_to_temp_green (to_int v) d | None => d end).

Definition sysfs_yellow_store (parsed : option Z) (count : Z) (d : driver) : Z * driver :=
  (count, match parsed with Some v => set_to_temp_yellow (to_int v) d | None => d end).

Definition sysfs_red_store (parsed : option Z) (count : Z) (d : driver) : Z * driver :=
  (count, match parsed with Some v => set_to_temp_red (to_int v) d | None => d end).

(** ** Module init and exit *)

(** What the kernel answers to each registration call of [temp_led_init]. *)
Record init_env := mkInitEnv {
  alloc_chrdev_region_ret : Z;
  cdev_add_ret : Z;
  class_create_is_err : bool;
  device_create_is_err : bool;
  kobject_created : bool;
  sysfs_create_green_ret : Z;
  sysfs_create_yellow_ret : Z;
  sysfs_create_red_ret : Z;
  proc_mkdir_null : bool;
  proc_create_null : bool;
  gpio_request_array_ret : Z;
  tz_null : bool;
  init_reading : option Z
}.

Definition resource_eq_dec (a b : resource) : {a = b} + {a <> b}.
Proof. repeat decide equality. Defined.

(** Resources acquired and not released by a later call, newest first. *)
Definition held (d : driver) : list resource :=
  fold_right
    (fun e acc =>
       match e with
       | Acquire r => r :: acc
       | Release r => remove resource_eq_dec r acc
       end)
    [] (kevents d).

Definition is_release (e : kevent) : bool :=
  match e with Release _ => true | Acquire _ => false end.

(** [gpio_request_array] on success: every line becomes an output driven to
    the level its flags name. *)
Definition gpio_request_array (lines : list gpio) (d : driver) : driver :=
  fold_left
    (fun d g => match gpio_fl g with GPIOF_OUT_INIT_HIGH => gpio_set_value (gpio_nr g) 1 d end)
    lines (kernel_call (Acquire GpioLines) d).

Section Init.

Variable msecs_to_jiffies : Z -> Z.

(** The error labels at the end of [temp_led_init], each falling through to
    the next. *)
Definition cdev_err (d : driver) : Z * driver :=
  (0, kernel_call (Release Cdev) d).

Definition class_err (d : driver) : Z * driver :=
  cdev_err (kernel_call (Release DevClass) d).

Definition device_err (d : driver) : Z * driver :=
  class_err (kernel_call (Release ChrdevRegion) d).

Definition sysfs_err (d : driver) : Z * driver :=
  device_err
    ((kernel_call (Release Kobject) ;;
      kernel_call (Release (SysfsFile kernel_kobj to_temp_green_attr)) ;;
      kernel_call (Release (SysfsFile kernel_kobj to_temp_yellow_attr)) ;;
      kernel_call (Release (SysfsFile kernel_kobj to_temp_red_attr))) d).

Definition acquire_if (ok : bool) (r : resource) (d : driver) : driver :=
  if ok then kernel_call (Acquire r) d else d.

Definition temp_led_init (env : init_env) (jiffies : Z) (d : driver) : Z * driver :=
  let d := (set_is_open 0 ;; set_data_size 0) d in
  let major := alloc_chrdev_region_ret env in
  if major <? 0 then
    (major, pr_err ("chrdev: register_chrdev failed " ++ fmt_d major ++ nl) d)
  else
  let d := kernel_call (Acquire ChrdevRegion) d in
  if cdev_add_ret env <? 0 then
    cdev_err (pr_err ("chrdev: cannot add the device to the system" ++ nl) d)
  else
  let d := kernel_call (Acquire Cdev) d in
  if class_create_is_err env then class_err d
  else
  let d := kernel_call (Acquire DevClass) d in
  if device_create_is_err env then device_err d
  else
  let d := kernel_call (Acquire DevNode) d in
  let d := acquire_if (kobject_created env) Kobject d in
  if negb (sysfs_create_green_ret env =? 0) then
    sysfs_err (pr_err ("chrdev: cannot create sysfs file to_temp_green_attr" ++ nl) d)
  else
  let d := kernel_call (Acquire (SysfsFile chrdev_kobj to_temp_green_attr)) d in
  if negb (sysfs_create_yellow_ret env =? 0) then
    sysfs_err (pr_err ("chrdev: cannot create sysfs file to_temp_yellow_attr" ++ nl) d)
  else
  let d := kernel_call (Acquire (SysfsFile chrdev_kobj to_temp_yellow_attr)) d in
  if negb (sysfs_create_red_ret env =? 0) then
    sysfs_err (pr_err ("chrdev: cannot create sysfs file to_temp_red_attr" ++ nl) d)
  else
  let d := kernel_call (Acquire (SysfsFile chrdev_kobj to_temp_red_attr)) d in
  if proc_mkdir_null env then
    (- ENOMEM, pr_err ("Failed to create /proc/chrdev_proc" ++ nl) d)
  else
  let d := kernel_call (Acquire ProcFolder) d in
  if proc_create_null env then
    (- ENOMEM,
     kernel_call (Release ProcFolder)
       (pr_err ("Failed to create /proc/chrdev_proc/chrdev_temp_blink_proc" ++ nl) d))
  else
  let d := kernel_call (Acquire ProcFile) d in
  if negb (gpio_request_array_ret env =? 0) then
    (-1, pr_err ("Failed to request GPIO array" ++ nl) d)
  else
  let d := gpio_request_array led_array d in
  if tz_null env then
    (- EINVAL, pr_err ("thermal_zone_get_zone_by_name error" ++ nl) d)
  else
  let '(ret, d) := thermal_zone_get_temp (init_reading env) d in
  let d := if ret =? 0 then d else pr_err ("Failed to get temperature" ++ nl) d in
  let d := mod_timer_blink (jiffies + msecs_to_jiffies TIMEOUT) d in
  let d := mod_timer_thermal (jiffies + msecs_to_jiffies TIMEOUT) d in
  (0, d).

End Init.

Definition temp_led_exit (d : driver) : driver :=
  (kernel_call (Release Kobject) ;;
   kernel_call (Release (SysfsFile kernel_kobj to_temp_green_attr)) ;;
   kernel_call (Release (SysfsFile kernel_kobj to_temp_yellow_attr)) ;;
   kernel_call (Release (SysfsFile kernel_kobj to_temp_red_attr)) ;;
   kernel_call (Release DevNode) ;;
   kernel_call (Release DevClass) ;;
   kernel_call (Release Cdev) ;;
   kernel_call (Release ChrdevRegion) ;;
   set_timer_blink None ;;
   set_timer_thermal None ;;
   kernel_call (Release GpioLines) ;;
   kernel_call (Release ProcFile) ;;
   kernel_call (Release ProcFolder)) d.

(** ** The specification's vocabulary

    The band classifier of the specification, written from its words, and
    how a band's output pattern appears in the driver's globals. *)

Module Spec.

Inductive Band := LOW | MID | HIGH | CRITICAL.
Inductive Led := RED | YELLOW | GREEN.
Inductive Mode := Off | On | Blinking.

Record Thresholds := mkThresholds {
  green_ceiling : Z;
  yellow_ceiling : Z;
  red_ceiling : Z
}.

Definition classify (t : Z) (th : Thresholds) : Band :=
  if t <? green_ceiling th then LOW
  else if t <? yellow_ceiling th then MID
  else if t <? red_ceiling th then HIGH
  else CRITICAL.

Definition pattern (b : Band) (l : Led) : Mode :=
  match b, l with
  | LOW, GREEN => Blinking | LOW, _ => Off
  | MID, YELLOW => Blinking | MID, _ => Off
  | HIGH, RED => Blinking | HIGH, _ => Off
  | CRITICAL, RED => Blinking | CRITICAL, _ => On
  end.

Definition blinking (b : Band) : Led :=
  match b with LOW => GREEN | MID => YELLOW | HIGH | CRITICAL => RED end.

End Spec.
Import Spec.

(** The line and the [led_array] slot of each LED (the header of the source:
    GPIO_5 RED, GPIO_6 YELLOW, GPIO_26 GREEN). *)
Definition led_line (l : Led) : Z :=
  match l with RED => GPIO_5 | YELLOW => GPIO_6 | GREEN => GPIO_26 end.

Definition led_slot (l : Led) : Z :=
  match l with RED => 0 | YELLOW => 1 | GREEN => 2 end.

(** A blinking output is driven high by the sample callback and then toggled
    by the blink callback. *)
Definition mode_level (m : Mode) : Z :=
  match m with Off => 0 | On | Blinking => 1 end.

Definition thresholds (d : driver) : Thresholds :=
  mkThresholds (to_temp_green d) (to_temp_yellow d) (to_temp_red d).

(** The temperature a cycle works with: the reading, or the stored value when
    the sensor fails. *)
Definition sampled (reading : option Z) (d : driver) : Z :=
  match reading with Some t => t | None => temp d end.

(** [d'] shows band [b] on top of [d]: the active index is the slot of the
    band's blinking LED and the three lines were written with the levels of
    the band's pattern. *)
Definition shows (b : Band) (d d' : driver) : Prop :=
  gpio_index d' = led_slot (blinking b) /\
  gpio_writes d' =
    [ (led_line GREEN, mode_level (pattern b GREEN));
      (led_line YELLOW, mode_level (pattern b YELLOW));
      (led_line RED, mode_level (pattern b RED)) ] ++ gpio_writes d.

(** Invariants of the globals. *)
Definition index_ok (d : driver) : Prop := 0 <= gpio_index d < 3.

Definition buffer_ok (d : driver) : Prop :=
  List.length (data_buffer d) = Z.to_nat BUFFER_SIZE /\
  0 <= data_size d <= BUFFER_SIZE.

(** ** Concrete situations *)

(** [msecs_to_jiffies] of a kernel ticking at 100 Hz. *)
Definition hz100 (ms : Z) : Z := (ms + 9) / 10.

(** Every registration succeeds and the sensor reads 38.000 degrees. *)
Definition env_ok : init_env :=
  mkInitEnv 0 0 false false true 0 0 0 false false 0 false (Some 38000).

(** As [env_ok], but the LED lines are taken. *)
Definition env_gpio_busy : init_env :=
  mkInitEnv 0 0 false false true 0 0 0 false false (- EBUSY) false (Some 38000).

(** As [env_ok], but the zone lookup yields a null pointer. *)
Definition env_no_zone : init_env :=
  mkInitEnv 0 0 false false true 0 0 0 false false 0 true (Some 38000).

(** The driver right after a successful [insmod] at tick 1000. *)
Definition booted : driver := snd (temp_led_init hz100 env_ok 1000 module_image).

(** Thresholds out of order: the yellow ceiling below the green one. *)
Definition crossed : driver :=
  set_to_temp_green 50000 (set_to_temp_yellow 40000 booted).

(** Thresholds out of order: the red ceiling below the other two. *)
Definition red_lowest : driver := set_to_temp_red 10000 booted.

(** The loopback buffer after [echo -n abc > /dev/chrdev0]. *)
Definition abc : list byte := list_byte_of_string "abc".

Definition holding_abc : driver :=
  match dev_write abc 3 booted with
  | Some (_, d) => d
  | None => booted
  end.

(** ** Views of the globals *)

(** What the LEDs and the two timers depend on. *)
Definition leds (d : driver)
  : Z * bool * option Z * option Z * list (Z * Z) :=
  (gpio_index d, flag_timer d, timer_blink d, timer_thermal d, gpio_writes d).

(** What the loopback device holds. *)
Definition loopback (d : driver) : Z * Z * list byte :=
  (is_open d, data_size d, data_buffer d).

(** ** Runs of the driver *)

(** [n] consecutive firings of the blink callback with nothing in between,
    firing number [k] at tick [tick k]. *)
Fixpoint blink_run (msecs_to_jiffies : Z -> Z) (tick : nat -> Z) (n : nat) (d : driver)
  : option driver :=
  match n with
  | O => Some d
  | S k =>
      match blink_run msecs_to_jiffies tick k d with
      | Some d' => timer_blink_callback msecs_to_jiffies (tick k) d'
      | None => None
      end
  end.

(** The entry points the kernel calls once the module is loaded, with the
    arguments and answers it supplies. *)
Inductive entry :=
| Blink (jiffies : Z)
| Sample (jiffies : Z) (reading : option Z)
| DevOpen
| DevRelease
| DevRead (writable len : Z)
| DevWrite (buffer : list byte) (len : Z)
| ProcRead (reading : option Z) (writable count pos : Z)
| StoreGreen (parsed : option Z) (count : Z)
| StoreYellow (parsed : option Z) (count : Z)
| StoreRed (parsed : option Z) (count : Z).

(** One call; [None] when the call leaves an array. *)
Definition exec (msecs_to_jiffies : Z -> Z) (e : entry) (d : driver) : option driver :=
  match e with
  | Blink jiffies => timer_blink_callback msecs_to_jiffies jiffies d
  | Sample jiffies reading => Some (thermal_callback msecs_to_jiffies jiffies reading d)
  | DevOpen => Some (snd (dev_open d))
  | DevRelease => Some (snd (dev_release d))
  | DevRead writable len => option_map snd (dev_read writable len d)
  | DevWrite buffer len => option_map snd (dev_write buffer len d)
  | ProcRead reading writable count pos =>
      option_map snd (hello_read reading writable count pos d)
  | StoreGreen parsed count => Some (snd (sysfs_green_store parsed count d))
  | StoreYellow parsed count => Some (snd (sysfs_yellow_store parsed count d))
  | StoreRed parsed count => Some (snd (sysfs_red_store parsed count d))
  end.

Fixpoint run (msecs_to_jiffies : Z -> Z) (es : list entry) (d : driver) : option driver :=
  match es with
  | [] => Some d
  | e :: es' =>
      match exec msecs_to_jiffies e d with
      | Some d' => run msecs_to_jiffies es' d'
      | None => None
      end
  end.

(** The arguments the VFS passes: lengths are [size_t] values, a write
    length is at most [INT_MAX], a file position is not negative. *)
Definition entry_ok (e : entry) : Prop :=
  match e with
  | DevRead _ len => 0 <= len
  | DevWrite _ len => 0 <= len <= INT_MAX
  | ProcRead _ _ count pos => 0 <= count /\ 0 <= pos
  | _ => True
  end.

(** Every registration call of [temp_led_init] succeeds. *)
Definition init_succeeds (env : init_env) : bool :=
  negb (alloc_chrdev_region_ret env <? 0)
  && negb (cdev_add_ret env <? 0)
  && negb (class_create_is_err env)
  && negb (device_create_is_err env)
  && (sysfs_create_green_ret env =? 0)
  && (sysfs_create_yellow_ret env =? 0)
  && (sysfs_create_red_ret env =? 0)
  && negb (proc_mkdir_null env)
  && negb (proc_create_null env)
  && (gpio_request_array_ret env =? 0)
  && negb (tz_null env).

(** A small session on the loopback device and the proc file between two
    samples and three blinks. *)
Definition session : list entry :=
  [ Blink 1500; Sample 1500 (Some 61000); Blink 1501; DevOpen;
    DevWrite abc 3; StoreGreen (Some 30000) 6; ProcRead None 4096 4096 0;
    DevRead 4096 2; Blink 1502; DevRelease; Sample 2000 None ].

(** The cdev cannot be added. *)
Definition env_no_cdev : init_env :=
  mkInitEnv 0 (- EBUSY) false false true 0 0 0 false false 0 false (Some 38000).

(** The proc file cannot be created. *)
Definition env_no_proc_file : init_env :=
  mkInitEnv 0 0 false false true 0 0 0 false true 0 false (Some 38000).

(** * Properties *)

(** ** Machine integers *)

Lemma to_int_small z : - 2 ^ 31 <= z < 2 ^ 31 -> to_int z = z.
Proof.
  intros H. unfold to_int, int_bits.
  replace (32 - 1) with 31 by reflexivity.
  rewrite Z.mod_small; lia.
Qed.

Lemma to_size_t_small z : 0 <= z < 2 ^ 32 -> to_size_t z = z.
Proof. intros H. unfold to_size_t, long_bits. apply Z.mod_small; lia. Qed.

Lemma to_ssize_t_small z : - 2 ^ 31 <= z < 2 ^ 31 -> to_ssize_t z = z.
Proof.
  intros H. unfold to_ssize_t, long_bits.
  replace (32 - 1) with 31 by reflexivity.
  rewrite Z.mod_small; lia.
Qed.

(** ** Text and buffers *)

Lemma length_list_byte_of_string s :
  List.length (list_byte_of_string s) = String.length s.
Proof.
  unfold list_byte_of_string. rewrite length_map.
  induction s as [|c s IH]; simpl; [reflexivity | now rewrite IH].
Qed.

Lemma sprintf_prefix buf s :
  firstn (String.length s) (sprintf buf s) = list_byte_of_string s.
Proof.
  unfold sprintf. rewrite <- (length_list_byte_of_string s).
  rewrite firstn_app, Nat.sub_diag, firstn_all. simpl. apply app_nil_r.
Qed.

Lemma sprintf_length buf s :
  (S (String.length s) <= List.length buf)%nat ->
  List.length (sprintf buf s) = List.length buf.
Proof.
  intros H. unfold sprintf.
  rewrite !length_app, length_list_byte_of_string, length_skipn. simpl. lia.
Qed.

(** ** The sample callback, branch by branch *)

Section ThermalFacts.

Variable msecs_to_jiffies : Z -> Z.
Variable jiffies : Z.

Lemma thermal_callback_temp reading d :
  temp (thermal_callback msecs_to_jiffies jiffies reading d) = sampled reading d.
Proof.
  unfold thermal_callback, thermal_zone_get_temp.
  destruct reading as [t|]; cbn -[Z.ltb String.append];
    repeat match goal with
           | |- context [if ?a <? ?b then _ else _] => destruct (a <? b)
           end; reflexivity.
Qed.

Lemma thermal_callback_shows reading d :
  shows (classify (sampled reading d) (thresholds d)) d
        (thermal_callback msecs_to_jiffies jiffies reading d).
Proof.
  unfold thermal_callback, thermal_zone_get_temp, classify, shows.
  destruct reading as [t|]; cbn -[Z.ltb String.append];
    repeat match goal with
           | |- context [if ?a <? ?b then _ else _] => destruct (a <? b)
           end; split; reflexivity.
Qed.

Lemma thermal_callback_timer reading d :
  timer_thermal (thermal_callback msecs_to_jiffies jiffies reading d) =
  Some (to_size_t (jiffies + msecs_to_jiffies TIMEOUT)).
Proof.
  unfold thermal_callback, thermal_zone_get_temp.
  destruct reading as [t|]; cbn -[Z.ltb String.append to_size_t];
    repeat match goal with
           | |- context [if ?a <? ?b then _ else _] => destruct (a <? b)
           end; reflexivity.
Qed.

Lemma thermal_callback_klog reading d :
  klog (thermal_callback msecs_to_jiffies jiffies reading d) =
  match reading with
  | Some _ => klog d
  | None => ("thermal_callback Failed to get temperature" ++ nl)%string :: klog d
  end.
Proof.
  unfold thermal_callback, thermal_zone_get_temp.
  destruct reading as [t|]; cbn -[Z.ltb String.append to_size_t];
    repeat match goal with
           | |- context [if ?a <? ?b then _ else _] => destruct (a <? b)
           end; reflexivity.
Qed.

Lemma thermal_callback_keeps reading d :
  let d' := thermal_callback msecs_to_jiffies jiffies reading d in
  flag_timer d' = flag_timer d /\ timer_blink d' = timer_blink d /\
  to_temp_green d' = to_temp_green d /\ to_temp_yellow d' = to_temp_yellow d /\
  to_temp_red d' = to_temp_red d /\
  data_size d' = data_size d /\ data_buffer d' = data_buffer d.
Proof.
  unfold thermal_callback, thermal_zone_get_temp.
  destruct reading as [t|]; cbn -[Z.ltb String.append to_size_t];
    repeat match goal with
           | |- context [if ?a <? ?b then _ else _] => destruct (a <? b)
           end; repeat split; reflexivity.
Qed.

End ThermalFacts.

Lemma shows_inj b1 b2 d d' : shows b1 d d' -> shows b2 d d' -> b1 = b2.
Proof.
  intros [_ H1] [_ H2]. rewrite H1 in H2.
  apply app_inv_tail in H2.
  destruct b1, b2; try reflexivity; discriminate H2.
Qed.

(** ** Band classification *)

(** C1 (as the code has it): the sample callback classifies the sampled
    temperature by the strict sequential test of the specification, first
    match winning: below the green ceiling LOW (GREEN blinking, RED and
    YELLOW off), else below the yellow ceiling MID, else below the red
    ceiling HIGH, else CRITICAL (RED blinking, YELLOW and GREEN on). The
    band shown is a function of the temperature and the three thresholds
    alone, whatever their order. A temperature equal to the green ceiling is
    never LOW, and it is MID exactly when the green ceiling lies below the
    yellow one; a temperature at or above all three ceilings, so any
    temperature at or above the red ceiling when the ceilings are in order,
    is CRITICAL. *)
Theorem thermal_callback_band :
  forall (msecs_to_jiffies : Z -> Z) (jiffies : Z) (reading : option Z) (d : driver),
    shows (classify (sampled reading d) (thresholds d)) d
          (thermal_callback msecs_to_jiffies jiffies reading d)
    /\ (forall b, shows b d (thermal_callback msecs_to_jiffies jiffies reading d) ->
                  b = classify (sampled reading d) (thresholds d))
    /\ (sampled reading d < to_temp_green d ->
        shows LOW d (thermal_callback msecs_to_jiffies jiffies reading d))
    /\ (to_temp_green d <= sampled reading d < to_temp_yellow d ->
        shows MID d (thermal_callback msecs_to_jiffies jiffies reading d))
    /\ (to_temp_green d <= sampled reading d ->
        to_temp_yellow d <= sampled reading d < to_temp_red d ->
        shows HIGH d (thermal_callback msecs_to_jiffies jiffies reading d))
    /\ (to_temp_green d <= sampled reading d ->
        to_temp_yellow d <= sampled reading d ->
        to_temp_red d <= sampled reading d ->
        shows CRITICAL d (thermal_callback msecs_to_jiffies jiffies reading d))
    /\ (sampled reading d = to_temp_green d ->
        ~ shows LOW d (thermal_callback msecs_to_jiffies jiffies reading d) /\
        (shows MID d (thermal_callback msecs_to_jiffies jiffies reading d) <->
         to_temp_green d < to_temp_yellow d))
    /\ (to_temp_green d <= to_temp_yellow d <= to_temp_red d ->
        to_temp_red d <= sampled reading d ->
        shows CRITICAL d (thermal_callback msecs_to_jiffies jiffies reading d)).
Proof.
  intros m2j jiffies reading d.
  pose proof (thermal_callback_shows m2j jiffies reading d) as Hs.
  assert (Hu : forall b, shows b d (thermal_callback m2j jiffies reading d) ->
                         b = classify (sampled reading d) (thresholds d))
    by (intros b Hb; exact (shows_inj _ _ _ _ Hb Hs)).
  revert Hs Hu. unfold classify, thresholds; cbn [green_ceiling yellow_ceiling red_ceiling].
  set (t := sampled reading d). set (d' := thermal_callback m2j jiffies reading d).
  destruct (Z.ltb_spec t (to_temp_green d)) as [Hg|Hg];
    [| destruct (Z.ltb_spec t (to_temp_yellow d)) as [Hy|Hy];
       [| destruct (Z.ltb_spec t (to_temp_red d)) as [Hr|Hr]]];
    intros Hs Hu; (split; [exact Hs|]); (split; [exact Hu|]);
    do 4 (split; [intros; first [exact Hs | exfalso; lia] |]);
    (split; [| intros; first [exact Hs | exfalso; lia]]);
    intros Heq; (split; [| split]);
    try (intros H; first [lia | apply Hu in H; discriminate H]);
    intros; first [exact Hs | exfalso; lia].
Qed.

(** C1, the claim as stated fails: with the yellow ceiling below the green
    one, a temperature equal to the green ceiling shows HIGH, not MID; and
    with the red ceiling lowest, a temperature above it shows LOW, not
    CRITICAL. *)
Lemma tie_at_green_shows_high :
  (temp (thermal_callback hz100 1500 (Some 50000) crossed) =
     to_temp_green (thermal_callback hz100 1500 (Some 50000) crossed)
   /\ shows HIGH crossed (thermal_callback hz100 1500 (Some 50000) crossed)
   /\ ~ shows MID crossed (thermal_callback hz100 1500 (Some 50000) crossed))
  /\ (to_temp_red red_lowest <= temp (thermal_callback hz100 1500 (Some 38000) red_lowest)
      /\ shows LOW red_lowest (thermal_callback hz100 1500 (Some 38000) red_lowest)
      /\ ~ shows CRITICAL red_lowest (thermal_callback hz100 1500 (Some 38000) red_lowest)).
Proof.
  vm_compute.
  repeat match goal with |- _ /\ _ => split end;
    try reflexivity; try discriminate; intros [H _]; discriminate H.
Qed.

(** The defaults: 59.999 degrees is MID, 40.000 exactly is MID as well, and
    75.000 is CRITICAL. *)
Lemma thermal_callback_band_witness :
  shows MID booted (thermal_callback hz100 1500 (Some 59999) booted)
  /\ shows MID booted (thermal_callback hz100 1500 (Some 40000) booted)
  /\ shows CRITICAL booted (thermal_callback hz100 1500 (Some 75000) booted).
Proof.
  split; [|split].
  - destruct (thermal_callback_band hz100 1500 (Some 59999) booted)
      as (_ & _ & _ & Hmid & _).
    apply Hmid. vm_compute. split; congruence.
  - destruct (thermal_callback_band hz100 1500 (Some 40000) booted)
      as (_ & _ & _ & _ & _ & _ & Htie & _).
    apply Htie; vm_compute; reflexivity.
  - destruct (thermal_callback_band hz100 1500 (Some 75000) booted)
      as (_ & _ & _ & _ & _ & _ & _ & Hcrit).
    apply Hcrit; vm_compute; [split|]; congruence.
Defined.

(** ** Who writes the active index *)

(** Case analysis on the outermost test of a nested conditional. *)
Ltac head_if_in H :=
  match type of H with
  | (if ?c then _ else _) = _ => destruct c eqn:?
  | (let '(_, _) := ?x in _) = _ => destruct x eqn:?
  end.

Ltac head_if :=
  match goal with
  | |- ?f (snd (if ?c then _ else _)) = _ => destruct c eqn:?
  | |- ?f (snd (let '(_, _) := ?x in _)) = _ => destruct x eqn:?
  end.

Ltac some_inv :=
  repeat match goal with
         | H : Some _ = Some _ |- _ => inversion H; subst; clear H
         | H : None = Some _ |- _ => discriminate H
         | H : (_, _) = (_, _) |- _ => inversion H; subst; clear H
         end.

Lemma led_array_at_ok i :
  0 <= i < 3 -> exists led, led_array_at i = Some led /\
                            (i = 0 /\ gpio_nr led = GPIO_5 \/
                             i = 1 /\ gpio_nr led = GPIO_6 \/
                             i = 2 /\ gpio_nr led = GPIO_26).
Proof.
  intros H.
  assert (i = 0 \/ i = 1 \/ i = 2) as [-> | [-> | ->]] by lia;
    eexists; (split; [reflexivity|]); cbn; tauto.
Qed.

Lemma timer_blink_callback_index m2j jiffies d d' :
  timer_blink_callback m2j jiffies d = Some d' -> gpio_index d' = gpio_index d.
Proof.
  unfold timer_blink_callback, gpio_set_active.
  destruct (led_array_at (gpio_index d)); destruct (flag_timer d);
    cbn -[to_size_t]; intros H; some_inv; reflexivity.
Qed.

Lemma dev_open_index d : gpio_index (snd (dev_open d)) = gpio_index d.
Proof. unfold dev_open. destruct (negb (is_open d =? 0)); reflexivity. Qed.

Lemma dev_read_index w len d r out d' :
  dev_read w len d = Some (r, out, d') -> gpio_index d' = gpio_index d.
Proof.
  unfold dev_read, copy_to_user. cbv zeta. intros H.
  repeat head_if_in H; some_inv; reflexivity.
Qed.

Lemma dev_write_index buffer len d r d' :
  dev_write buffer len d = Some (r, d') -> gpio_index d' = gpio_index d.
Proof.
  unfold dev_write, copy_from_user. cbv zeta. intros H.
  repeat head_if_in H; some_inv;
    repeat match goal with
           | |- context [if ?c then _ else _] => destruct c
           end; reflexivity.
Qed.

Lemma hello_read_index reading w count pos d r out pos' d' :
  hello_read reading w count pos d = Some (r, out, pos', d') ->
  gpio_index d' = gpio_index d.
Proof.
  unfold hello_read, thermal_zone_get_temp, copy_to_user.
  destruct reading; cbv zeta; intros H;
    repeat head_if_in H; some_inv;
    repeat match goal with
           | |- context [if ?c then _ else _] => destruct c
           end; reflexivity.
Qed.

Lemma gpio_request_array_index lines d :
  gpio_index (gpio_request_array lines d) = gpio_index d.
Proof.
  unfold gpio_request_array.
  change (gpio_index d) with (gpio_index (kernel_call (Acquire GpioLines) d)).
  generalize (kernel_call (Acquire GpioLines) d).
  induction lines as [|g lines IH]; intros d0; simpl; [reflexivity|].
  rewrite IH. destruct (gpio_fl g). reflexivity.
Qed.

(** What [temp_led_init] leaves alone, and what it resets. *)
Lemma temp_led_init_globals m2j env jiffies d :
  gpio_index (snd (temp_led_init m2j env jiffies d)) = gpio_index d
  /\ data_size (snd (temp_led_init m2j env jiffies d)) = 0
  /\ data_buffer (snd (temp_led_init m2j env jiffies d)) = data_buffer d
  /\ flag_timer (snd (temp_led_init m2j env jiffies d)) = flag_timer d.
Proof.
  assert (G : forall f : driver -> Z * list byte * bool,
             (forall e x, f (kernel_call e x) = f x) ->
             (forall m x, f (pr_err m x) = f x) ->
             (forall l v x, f (gpio_set_value l v x) = f x) ->
             (forall v x, f (set_temp v x) = f x) ->
             (forall v x, f (set_timer_blink v x) = f x) ->
             (forall v x, f (set_timer_thermal v x) = f x) ->
             f (snd (temp_led_init m2j env jiffies d))
             = f (set_data_size 0 (set_is_open 0 d))).
  { intros f Hk Hp Hg Ht Hb Hth.
    unfold temp_led_init, thermal_zone_get_temp, acquire_if,
      sysfs_err, device_err, class_err, cdev_err, gpio_request_array,
      mod_timer_blink, mod_timer_thermal.
    destruct (init_reading env); cbv beta iota zeta;
      repeat head_if; cbn [snd fold_left led_array gpio_fl];
      repeat match goal with
             | |- context [if ?c then _ else _] => destruct c
             end;
      repeat first [rewrite Hk | rewrite Hp | rewrite Hg | rewrite Ht
                   | rewrite Hb | rewrite Hth]; reflexivity. }
  specialize (G (fun x => (gpio_index x, data_buffer x, flag_timer x))).
  assert (Z0 : data_size (snd (temp_led_init m2j env jiffies d)) = 0).
  { unfold temp_led_init, thermal_zone_get_temp, acquire_if.
    destruct (init_reading env); cbv beta iota zeta;
      repeat head_if;
      repeat match goal with
             | |- context [if ?c then _ else _] => destruct c
             end; reflexivity. }
  cbv beta in G.
  assert (E : (gpio_index (snd (temp_led_init m2j env jiffies d)),
               data_buffer (snd (temp_led_init m2j env jiffies d)),
               flag_timer (snd (temp_led_init m2j env jiffies d)))
              = (gpio_index d, data_buffer d, flag_timer d))
    by (apply G; reflexivity).
  inversion E as [[E1 E2 E3]]. rewrite E1, E2, E3. repeat split; assumption.
Qed.

Lemma temp_led_init_index m2j env jiffies d :
  gpio_index (snd (temp_led_init m2j env jiffies d)) = gpio_index d.
Proof. exact (proj1 (temp_led_init_globals m2j env jiffies d)). Qed.

(** ** The blink callback *)

(** C2: a firing of the blink callback runs exactly one of two branches,
    chosen by [flag_timer], and negates the flag. With the flag clear it
    drives the line at the current [gpio_index] low and re-arms the blink
    timer 10 ms after the firing; with the flag set it drives that line high
    and re-arms the timer 1 ms after the firing. The next firing therefore
    takes the other branch, on whichever index is current then. *)
Theorem timer_blink_callback_alternates :
  forall (msecs_to_jiffies : Z -> Z) (jiffies : Z) (d : driver),
    index_ok d ->
    exists led d',
      led_array_at (gpio_index d) = Some led
      /\ timer_blink_callback msecs_to_jiffies jiffies d = Some d'
      /\ flag_timer d' = negb (flag_timer d)
      /\ gpio_index d' = gpio_index d
      /\ (if flag_timer d
          then gpio_writes d' = (gpio_nr led, 1) :: gpio_writes d
               /\ timer_blink d' = Some (to_size_t (jiffies + msecs_to_jiffies 1))
          else gpio_writes d' = (gpio_nr led, 0) :: gpio_writes d
               /\ timer_blink d' = Some (to_size_t (jiffies + msecs_to_jiffies 10)))
      /\ forall (jiffies2 : Z) (d1 : driver),
          index_ok d1 -> flag_timer d1 = flag_timer d' ->
          exists led2 d2,
            led_array_at (gpio_index d1) = Some led2
            /\ timer_blink_callback msecs_to_jiffies jiffies2 d1 = Some d2
            /\ flag_timer d2 = flag_timer d
            /\ (if flag_timer d
                then gpio_writes d2 = (gpio_nr led2, 0) :: gpio_writes d1
                     /\ timer_blink d2 =
                        Some (to_size_t (jiffies2 + msecs_to_jiffies 10))
                else gpio_writes d2 = (gpio_nr led2, 1) :: gpio_writes d1
                     /\ timer_blink d2 =
                        Some (to_size_t (jiffies2 + msecs_to_jiffies 1))).
Proof.
  intros m2j jiffies d Hd.
  destruct (led_array_at_ok (gpio_index d) Hd) as (led & Hled & _).
  unfold timer_blink_callback at 1. unfold gpio_set_active at 1 2. rewrite Hled.
  destruct (flag_timer d) eqn:Hf; cbn -[to_size_t];
    eexists; eexists; (split; [reflexivity|]); (split; [reflexivity|]);
    cbn -[to_size_t]; rewrite ?Hf; repeat (split; [reflexivity|]);
    (split; [split; reflexivity|]).
  all: intros jiffies2 d1 Hd1 Hf1.
  all: destruct (led_array_at_ok (gpio_index d1) Hd1) as (led2 & Hled2 & _).
  all: unfold timer_blink_callback, gpio_set_active; rewrite Hled2, Hf1.
  all: cbn -[to_size_t]; eexists; eexists; (split; [reflexivity|]);
    (split; [reflexivity|]); cbn -[to_size_t]; rewrite ?Hf1; cbn;
    repeat split; reflexivity.
Qed.

(** After boot the active index is 0 and the flag is clear: the first firing
    drives the RED line low and sets the flag. *)
Lemma timer_blink_callback_alternates_witness :
  index_ok booted /\
  exists d', timer_blink_callback hz100 1500 booted = Some d'
             /\ flag_timer d' = negb (flag_timer booted)
             /\ gpio_index d' = gpio_index booted.
Proof.
  assert (H : index_ok booted) by (vm_compute; split; congruence).
  split; [exact H|].
  destruct (timer_blink_callback_alternates hz100 1500 booted H)
    as (led & d' & _ & Hrun & Hflag & Hidx & _).
  exists d'. split; [exact Hrun | split; [exact Hflag | exact Hidx]].
Defined.

(** ** The sample callback *)

(** C3: every firing of the sample callback leaves [gpio_index] at the
    [led_array] slot of the LED that the classified band designates as
    blinking (slot 2, GREEN, for LOW; slot 1, YELLOW, for MID; slot 0, RED,
    for HIGH and CRITICAL), so the index is 0, 1 or 2; it writes the three
    lines with the levels of the band's pattern whatever they were before;
    and it re-arms the thermal timer 5000 ms after the firing. No other entry
    point of the driver changes [gpio_index]. *)
Theorem thermal_callback_selects_active :
  forall (msecs_to_jiffies : Z -> Z) (jiffies : Z) (reading : option Z) (d : driver),
    index_ok (thermal_callback msecs_to_jiffies jiffies reading d)
    /\ option_map gpio_nr
         (led_array_at (gpio_index (thermal_callback msecs_to_jiffies jiffies reading d)))
       = Some (led_line (blinking (classify (sampled reading d) (thresholds d))))
    /\ shows (classify (sampled reading d) (thresholds d)) d
             (thermal_callback msecs_to_jiffies jiffies reading d)
    /\ timer_thermal (thermal_callback msecs_to_jiffies jiffies reading d)
       = Some (to_size_t (jiffies + msecs_to_jiffies 5000))
    /\ (forall j d0 d1, timer_blink_callback msecs_to_jiffies j d0 = Some d1 ->
                        gpio_index d1 = gpio_index d0)
    /\ (forall d0, gpio_index (snd (dev_open d0)) = gpio_index d0)
    /\ (forall d0, gpio_index (snd (dev_release d0)) = gpio_index d0)
    /\ (forall w len d0 r out d1, dev_read w len d0 = Some (r, out, d1) ->
                                  gpio_index d1 = gpio_index d0)
    /\ (forall buffer len d0 r d1, dev_write buffer len d0 = Some (r, d1) ->
                                   gpio_index d1 = gpio_index d0)
    /\ (forall rd w count pos d0 r out pos' d1,
           hello_read rd w count pos d0 = Some (r, out, pos', d1) ->
           gpio_index d1 = gpio_index d0)
    /\ (forall parsed count d0,
           gpio_index (snd (sysfs_green_store parsed count d0)) = gpio_index d0
           /\ gpio_index (snd (sysfs_yellow_store parsed count d0)) = gpio_index d0
           /\ gpio_index (snd (sysfs_red_store parsed count d0)) = gpio_index d0)
    /\ (forall env j d0,
           gpio_index (snd (temp_led_init msecs_to_jiffies env j d0)) = gpio_index d0)
    /\ (forall d0, gpio_index (temp_led_exit d0) = gpio_index d0).
Proof.
  intros m2j jiffies reading d.
  pose proof (thermal_callback_shows m2j jiffies reading d) as Hs.
  assert (Hi : gpio_index (thermal_callback m2j jiffies reading d)
               = led_slot (blinking (classify (sampled reading d) (thresholds d))))
    by exact (proj1 Hs).
  split; [| split; [| split; [exact Hs | split]]].
  - unfold index_ok. rewrite Hi.
    destruct (classify (sampled reading d) (thresholds d)); cbn; lia.
  - rewrite Hi.
    destruct (classify (sampled reading d) (thresholds d)); reflexivity.
  - apply thermal_callback_timer.
  - split; [exact (timer_blink_callback_index m2j)|].
    split; [exact dev_open_index|].
    split; [reflexivity|].
    split; [exact dev_read_index|].
    split; [exact dev_write_index|].
    split; [exact hello_read_index|].
    split; [intros [v|] count d0; repeat split; reflexivity|].
    split; [exact (temp_led_init_index m2j)|].
    reflexivity.
Qed.

(** C4, the claim as stated fails: after boot all three lines are high; when
    the first sample cannot read the sensor, the callback classifies the
    stored 38.000 degrees as LOW and drives RED and YELLOW low. *)
Lemma failed_read_rewrites_outputs :
  gpio_level GPIO_5 booted = Some 1
  /\ gpio_level GPIO_6 booted = Some 1
  /\ gpio_level GPIO_5 (thermal_callback hz100 1500 None booted) = Some 0
  /\ gpio_level GPIO_6 (thermal_callback hz100 1500 None booted) = Some 0
  /\ List.length (gpio_writes (thermal_callback hz100 1500 None booted))
     = (3 + List.length (gpio_writes booted))%nat.
Proof. vm_compute. repeat split; reflexivity. Qed.

(** C4 (as the code has it): when the temperature read fails, the callback
    logs the failure and then writes all three lines with the pattern of the
    band of the temperature stored before the cycle. *)
Theorem thermal_callback_logs_failure :
  forall (msecs_to_jiffies : Z -> Z) (jiffies : Z) (d : driver),
    klog (thermal_callback msecs_to_jiffies jiffies None d)
    = ("thermal_callback Failed to get temperature" ++ nl)%string :: klog d
    /\ shows (classify (temp d) (thresholds d)) d
             (thermal_callback msecs_to_jiffies jiffies None d)
    /\ List.length (gpio_writes (thermal_callback msecs_to_jiffies jiffies None d))
       = (3 + List.length (gpio_writes d))%nat.
Proof.
  intros m2j jiffies d.
  pose proof (thermal_callback_shows m2j jiffies None d) as Hs.
  split; [exact (thermal_callback_klog m2j jiffies None d)|].
  split; [exact Hs|].
  destruct Hs as [_ Hw]. rewrite Hw. reflexivity.
Qed.

(** C5: when the temperature read fails, the stored temperature is the one
    of the previous cycle, the callback still classifies it and selects the
    active index from it, and it re-arms the thermal timer; it produces a
    result for every input. *)
Theorem thermal_callback_keeps_last_reading :
  forall (msecs_to_jiffies : Z -> Z) (jiffies : Z) (d : driver),
    temp (thermal_callback msecs_to_jiffies jiffies None d) = temp d
    /\ shows (classify (temp d) (thresholds d)) d
             (thermal_callback msecs_to_jiffies jiffies None d)
    /\ gpio_index (thermal_callback msecs_to_jiffies jiffies None d)
       = led_slot (blinking (classify (temp d) (thresholds d)))
    /\ timer_thermal (thermal_callback msecs_to_jiffies jiffies None d)
       = Some (to_size_t (jiffies + msecs_to_jiffies TIMEOUT))
    /\ thresholds (thermal_callback msecs_to_jiffies jiffies None d) = thresholds d.
Proof.
  intros m2j jiffies d.
  pose proof (thermal_callback_shows m2j jiffies None d) as Hs.
  pose proof (thermal_callback_keeps m2j jiffies None d) as (_ & _ & Hg & Hy & Hr & _).
  split; [exact (thermal_callback_temp m2j jiffies None d)|].
  split; [exact Hs|].
  split; [exact (proj1 Hs)|].
  split; [exact (thermal_callback_timer m2j jiffies None d)|].
  unfold thresholds. rewrite Hg, Hy, Hr. reflexivity.
Qed.

(** ** The loopback device *)

Lemma buffer_ok_module_image : buffer_ok module_image.
Proof. vm_compute. repeat split; congruence. Qed.

Lemma min_gtb a b : (if a >? b then b else a) = Z.min a b.
Proof. rewrite Z.gtb_ltb. destruct (Z.ltb_spec b a); lia. Qed.

(** A write whose source can be loaded in full. *)
Lemma dev_write_success buffer len d :
  0 <= len <= INT_MAX ->
  Z.min len BUFFER_SIZE <= Z.of_nat (List.length buffer) ->
  dev_write buffer len d =
  Some (Z.min len BUFFER_SIZE,
        set_data_buffer
          (firstn (Z.to_nat (Z.min len BUFFER_SIZE)) buffer
             ++ skipn (Z.to_nat (Z.min len BUFFER_SIZE)) (data_buffer d))
          (set_data_size (Z.min len BUFFER_SIZE) d)).
Proof.
  intros Hlen Hsrc. unfold INT_MAX, int_bits in Hlen.
  replace (2 ^ (32 - 1) - 1) with 2147483647 in Hlen by reflexivity.
  unfold dev_write. rewrite to_int_small by lia.
  cbn [data_size set_data_size].
  assert (Hsz : data_size (if len >? BUFFER_SIZE
                           then set_data_size BUFFER_SIZE (set_data_size len d)
                           else set_data_size len d) = Z.min len BUFFER_SIZE).
  { rewrite Z.gtb_ltb. destruct (Z.ltb_spec BUFFER_SIZE len); cbn; lia. }
  assert (Hd : (if len >? BUFFER_SIZE
                then set_data_size BUFFER_SIZE (set_data_size len d)
                else set_data_size len d) = set_data_size (Z.min len BUFFER_SIZE) d).
  { rewrite Z.gtb_ltb. destruct (Z.ltb_spec BUFFER_SIZE len).
    - rewrite Z.min_r by lia. reflexivity.
    - rewrite Z.min_l by lia. reflexivity. }
  rewrite Hd. cbn [data_size set_data_size data_buffer].
  set (m := Z.min len BUFFER_SIZE) in *.
  assert (Hm : 0 <= m <= 1024) by (unfold m, BUFFER_SIZE; lia).
  rewrite to_size_t_small by lia.
  replace (m >? BUFFER_SIZE) with false
    by (symmetry; rewrite Z.gtb_ltb; apply Z.ltb_ge; unfold BUFFER_SIZE; lia).
  unfold copy_from_user. rewrite Z.min_l by lia. rewrite Z.sub_diag.
  rewrite to_int_small by lia. cbn. reflexivity.
Qed.

(** A read whose destination can take the bytes in full. *)
Lemma dev_read_success writable len d :
  0 <= data_size d <= BUFFER_SIZE -> 0 <= len ->
  Z.min len (data_size d) <= Z.max 0 writable ->
  dev_read writable len d =
  Some (Z.min len (data_size d),
        firstn (Z.to_nat (Z.min len (data_size d))) (data_buffer d),
        set_data_size 0 d).
Proof.
  intros Hsz Hlen Hw. unfold BUFFER_SIZE in Hsz.
  unfold dev_read. rewrite to_size_t_small by lia. rewrite min_gtb.
  set (m := Z.min len (data_size d)) in *.
  assert (Hm : 0 <= m <= 1024) by (unfold m; lia).
  replace (m >? BUFFER_SIZE) with false
    by (symmetry; rewrite Z.gtb_ltb; apply Z.ltb_ge; unfold BUFFER_SIZE; lia).
  unfold copy_to_user. rewrite Z.min_l by lia. rewrite Z.sub_diag.
  rewrite to_int_small by lia. cbn [Z.eqb negb].
  rewrite to_ssize_t_small by lia. reflexivity.
Qed.

(** A read whose destination cannot take the bytes leaves the device as it
    was. *)
Lemma dev_read_fault writable len d :
  0 <= data_size d <= BUFFER_SIZE -> 0 <= len ->
  Z.max 0 writable < Z.min len (data_size d) ->
  exists out d',
    dev_read writable len d = Some (- EFAULT, out, d')
    /\ data_size d' = data_size d /\ data_buffer d' = data_buffer d.
Proof.
  intros Hsz Hlen Hw. unfold BUFFER_SIZE in Hsz.
  unfold dev_read. rewrite to_size_t_small by lia. rewrite min_gtb.
  set (m := Z.min len (data_size d)) in *.
  assert (Hm : 0 <= m <= 1024) by (unfold m; lia).
  replace (m >? BUFFER_SIZE) with false
    by (symmetry; rewrite Z.gtb_ltb; apply Z.ltb_ge; unfold BUFFER_SIZE; lia).
  unfold copy_to_user.
  assert (Hr : 0 < m - Z.min m (Z.max 0 writable) <= 1024) by lia.
  rewrite to_int_small by lia.
  replace (m - Z.min m (Z.max 0 writable) =? 0) with false
    by (symmetry; apply Z.eqb_neq; lia).
  cbn [negb]. eexists; eexists. split; [reflexivity|]. split; reflexivity.
Qed.

Lemma dev_write_buffer_ok buffer len d r d' :
  buffer_ok d -> 0 <= len <= INT_MAX ->
  dev_write buffer len d = Some (r, d') -> buffer_ok d'.
Proof.
  intros [Hlen Hsz] Hl H. unfold INT_MAX, int_bits in Hl.
  replace (2 ^ (32 - 1) - 1) with 2147483647 in Hl by reflexivity.
  unfold dev_write in H. rewrite to_int_small in H by lia.
  cbn [data_size set_data_size] in H.
  assert (Hd : (if len >? BUFFER_SIZE
                then set_data_size BUFFER_SIZE (set_data_size len d)
                else set_data_size len d) = set_data_size (Z.min len BUFFER_SIZE) d).
  { rewrite Z.gtb_ltb. destruct (Z.ltb_spec BUFFER_SIZE len).
    - rewrite Z.min_r by lia. reflexivity.
    - rewrite Z.min_l by lia. reflexivity. }
  rewrite Hd in H. cbn [data_size set_data_size data_buffer] in H.
  set (m := Z.min len BUFFER_SIZE) in *.
  assert (Hm : 0 <= m <= 1024) by (unfold m, BUFFER_SIZE; lia).
  rewrite to_size_t_small in H by lia.
  replace (m >? BUFFER_SIZE) with false in H
    by (symmetry; rewrite Z.gtb_ltb; apply Z.ltb_ge; unfold BUFFER_SIZE; lia).
  unfold copy_from_user in H.
  assert (Hbuf : List.length
            (firstn (Z.to_nat (Z.min m (Z.of_nat (List.length buffer)))) buffer ++
             repeat x00 (Z.to_nat (m - Z.min m (Z.of_nat (List.length buffer)))) ++
             skipn (Z.to_nat m) (data_buffer d)) = Z.to_nat BUFFER_SIZE).
  { rewrite !length_app, length_firstn, repeat_length, length_skipn, Hlen.
    unfold BUFFER_SIZE. lia. }
  destruct (negb _) in H; some_inv; split; cbn; try exact Hbuf;
    unfold BUFFER_SIZE; lia.
Qed.

Lemma dev_read_buffer_ok writable len d r out d' :
  buffer_ok d -> dev_read writable len d = Some (r, out, d') -> buffer_ok d'.
Proof.
  intros [Hlen Hsz]. unfold dev_read, copy_to_user. cbv zeta. intros H.
  repeat head_if_in H; some_inv; split; cbn; try assumption;
    unfold BUFFER_SIZE; lia.
Qed.

Lemma temp_led_init_buffer_ok m2j env jiffies d :
  List.length (data_buffer d) = Z.to_nat BUFFER_SIZE ->
  buffer_ok (snd (temp_led_init m2j env jiffies d)).
Proof.
  intros Hlen.
  destruct (temp_led_init_globals m2j env jiffies d) as (_ & Hz & Hb & _).
  unfold buffer_ok. rewrite Hz, Hb. unfold BUFFER_SIZE in *. split; [exact Hlen | lia].
Qed.

(** The invariants hold once the module is loaded. *)
Lemma booted_invariants : index_ok booted /\ buffer_ok booted.
Proof. vm_compute. repeat split; congruence. Qed.

(** C6: a write of [len] bytes stores the first [min len 1024] of them and
    records that length; a read that asks for at least that many bytes then
    returns exactly those bytes, and any further read before the next write
    returns zero bytes. The write's source and the read's destination are
    accessible user memory, and [len] is a length the VFS can pass (it caps
    transfers below [INT_MAX]). *)
Theorem dev_write_read_round_trip :
  forall (buffer : list byte) (len rlen writable : Z) (d : driver),
    0 <= len <= INT_MAX ->
    Z.min len BUFFER_SIZE <= Z.of_nat (List.length buffer) ->
    Z.min len BUFFER_SIZE <= rlen ->
    Z.min len BUFFER_SIZE <= writable ->
    exists d1 d2,
      dev_write buffer len d = Some (Z.min len BUFFER_SIZE, d1)
      /\ data_size d1 = Z.min len BUFFER_SIZE
      /\ firstn (Z.to_nat (Z.min len BUFFER_SIZE)) (data_buffer d1)
         = firstn (Z.to_nat (Z.min len BUFFER_SIZE)) buffer
      /\ dev_read writable rlen d1
         = Some (Z.min len BUFFER_SIZE,
                 firstn (Z.to_nat (Z.min len BUFFER_SIZE)) buffer, d2)
      /\ data_size d2 = 0
      /\ forall (writable2 rlen2 : Z),
          0 <= rlen2 ->
          exists d3, dev_read writable2 rlen2 d2 = Some (0, [], d3)
                     /\ data_size d3 = 0.
Proof.
  intros buffer len rlen writable d Hlen Hsrc Hrlen Hw.
  set (m := Z.min len BUFFER_SIZE) in *.
  assert (Hm : 0 <= m <= 1024) by (unfold m, BUFFER_SIZE; lia).
  assert (Hpre : forall tl, firstn (Z.to_nat m) (firstn (Z.to_nat m) buffer ++ tl)
                            = firstn (Z.to_nat m) buffer).
  { intros tl. rewrite firstn_app, length_firstn, firstn_firstn, Nat.min_id.
    replace (Z.to_nat m - Nat.min (Z.to_nat m) (List.length buffer))%nat with 0%nat by lia.
    apply app_nil_r. }
  eexists; eexists.
  split; [exact (dev_write_success buffer len d Hlen Hsrc)|].
  split; [reflexivity|].
  split; [cbn [data_buffer set_data_buffer]; apply Hpre|].
  split.
  - rewrite dev_read_success;
      cbn [data_size set_data_size set_data_buffer data_buffer];
      fold m; unfold BUFFER_SIZE; try lia.
    rewrite Z.min_r by lia. rewrite Hpre. reflexivity.
  - split; [reflexivity|].
    intros writable2 rlen2 Hr2. eexists.
    rewrite dev_read_success;
      cbn [data_size set_data_size set_data_buffer data_buffer];
      unfold BUFFER_SIZE; try lia.
    rewrite Z.min_r by lia. split; reflexivity.
Qed.

(** Writing "abc" after boot, then reading with a 4096-byte request, gives
    "abc"; the next read gives nothing. *)
Lemma dev_write_read_round_trip_witness :
  (0 <= 3 <= INT_MAX)
  /\ Z.min 3 BUFFER_SIZE <= Z.of_nat (List.length abc)
  /\ Z.min 3 BUFFER_SIZE <= 4096
  /\ exists d1 d2,
       dev_write abc 3 booted = Some (3, d1)
       /\ dev_read 4096 4096 d1 = Some (3, abc, d2)
       /\ exists d3, dev_read 4096 4096 d2 = Some (0, [], d3).
Proof.
  assert (H1 : 0 <= 3 <= INT_MAX) by (vm_compute; split; congruence).
  assert (H2 : Z.min 3 BUFFER_SIZE <= Z.of_nat (List.length abc))
    by (vm_compute; congruence).
  assert (H3 : Z.min 3 BUFFER_SIZE <= 4096) by (vm_compute; congruence).
  split; [exact H1 | split; [exact H2 | split; [exact H3|]]].
  destruct (dev_write_read_round_trip abc 3 4096 4096 booted H1 H2 H3 H3)
    as (d1 & d2 & Hw & _ & _ & Hr & _ & Hnext).
  destruct (Hnext 4096 4096) as (d3 & Hr2 & _); [vm_compute; congruence|].
  exists d1, d2. split; [exact Hw | split; [exact Hr | exists d3; exact Hr2]].
Defined.

(** C10: a successful read hands out the first [min len data_size] stored
    bytes and sets the recorded length to zero whatever [len] was, a zero
    or short [len] included: the unread remainder stays in the array but is
    no longer reachable, and the next read returns zero bytes. A read
    succeeds exactly when its destination can take those bytes. *)
Theorem dev_read_resets_length :
  forall (writable len : Z) (d : driver),
    0 <= data_size d <= BUFFER_SIZE ->
    0 <= len ->
    (Z.min len (data_size d) <= Z.max 0 writable ->
     exists d1,
       dev_read writable len d
       = Some (Z.min len (data_size d),
               firstn (Z.to_nat (Z.min len (data_size d))) (data_buffer d), d1)
       /\ data_size d1 = 0
       /\ data_buffer d1 = data_buffer d
       /\ forall (writable2 len2 : Z),
           0 <= len2 ->
           exists d2, dev_read writable2 len2 d1 = Some (0, [], d2)
                      /\ data_size d2 = 0)
    /\ (forall r out d1,
           dev_read writable len d = Some (r, out, d1) -> 0 <= r ->
           data_size d1 = 0 /\ r = Z.min len (data_size d)).
Proof.
  intros writable len d Hsz Hlen. split.
  - intros Hw. eexists.
    split; [exact (dev_read_success writable len d Hsz Hlen Hw)|].
    split; [reflexivity|]. split; [reflexivity|].
    intros writable2 len2 Hl2. eexists.
    rewrite dev_read_success;
      cbn [data_size set_data_size]; unfold BUFFER_SIZE; try lia.
    rewrite Z.min_r by lia. split; reflexivity.
  - intros r out d1 Hrun Hr.
    destruct (Z_le_gt_dec (Z.min len (data_size d)) (Z.max 0 writable)) as [Hw|Hw].
    + rewrite (dev_read_success writable len d Hsz Hlen Hw) in Hrun.
      some_inv. split; reflexivity.
    + destruct (dev_read_fault writable len d Hsz Hlen) as (o & d' & Hf & _); [lia|].
      rewrite Hf in Hrun. some_inv. unfold EFAULT in Hr. lia.
Qed.

(** With "abc" stored, a one-byte read returns "a" and drops "bc". *)
Lemma dev_read_resets_length_witness :
  (0 <= data_size holding_abc <= BUFFER_SIZE)
  /\ exists d1,
       dev_read 4096 1 holding_abc = Some (1, firstn 1 abc, d1)
       /\ data_size d1 = 0
       /\ exists d2, dev_read 4096 4096 d1 = Some (0, [], d2).
Proof.
  assert (H1 : 0 <= data_size holding_abc <= BUFFER_SIZE)
    by (vm_compute; split; congruence).
  assert (H2 : 0 <= 1) by (vm_compute; congruence).
  split; [exact H1|].
  destruct (dev_read_resets_length 4096 1 holding_abc H1 H2) as [Hok _].
  destruct Hok as (d1 & Hr & Hz & _ & Hnext); [vm_compute; congruence|].
  destruct (Hnext 4096 4096) as (d2 & Hr2 & _); [vm_compute; congruence|].
  exists d1. split; [exact Hr | split; [exact Hz | exists d2; exact Hr2]].
Defined.

(** C7, the write path: with "abc" stored, a write of 5 bytes from an
    inaccessible user buffer returns [-EFAULT], yet the recorded length has
    become 5 and the stored bytes have been overwritten with zeros; the next
    read hands out five zero bytes instead of "abc". *)
Theorem dev_write_fault_keeps_new_length :
  data_size holding_abc = 3
  /\ firstn 3 (data_buffer holding_abc) = abc
  /\ match dev_write [] 5 holding_abc with
     | Some (r, d') =>
         r = - EFAULT
         /\ data_size d' = 5
         /\ firstn 3 (data_buffer d') = [x00; x00; x00]
         /\ match dev_read 4096 4096 d' with
            | Some (r2, out, _) => r2 = 5 /\ out = [x00; x00; x00; x00; x00]
            | None => False
            end
     | None => False
     end.
Proof. vm_compute. repeat split; reflexivity. Qed.

(** ** Module init *)

(** C8, the failing paths: when [gpio_request_array] fails, [temp_led_init]
    returns -1 having released nothing: the device number, the cdev, the
    class, the device node, the kobject with its three attribute files and
    both proc entries stay registered. When the zone lookup yields a null
    pointer it returns [-EINVAL], again without a single release, and the
    LED lines stay claimed as well. *)
Theorem temp_led_init_failure_releases_nothing :
  (fst (temp_led_init hz100 env_gpio_busy 1000 module_image) = -1
   /\ filter is_release
        (kevents (snd (temp_led_init hz100 env_gpio_busy 1000 module_image))) = []
   /\ held (snd (temp_led_init hz100 env_gpio_busy 1000 module_image))
      = [ProcFile; ProcFolder;
         SysfsFile chrdev_kobj to_temp_red_attr;
         SysfsFile chrdev_kobj to_temp_yellow_attr;
         SysfsFile chrdev_kobj to_temp_green_attr;
         Kobject; DevNode; DevClass; Cdev; ChrdevRegion])
  /\ (fst (temp_led_init hz100 env_no_zone 1000 module_image) = - EINVAL
      /\ filter is_release
           (kevents (snd (temp_led_init hz100 env_no_zone 1000 module_image))) = []
      /\ held (snd (temp_led_init hz100 env_no_zone 1000 module_image))
         = [GpioLines; ProcFile; ProcFolder;
            SysfsFile chrdev_kobj to_temp_red_attr;
            SysfsFile chrdev_kobj to_temp_yellow_attr;
            SysfsFile chrdev_kobj to_temp_green_attr;
            Kobject; DevNode; DevClass; Cdev; ChrdevRegion]).
Proof. vm_compute. repeat split; reflexivity. Qed.

(** ** The proc file *)

(** C9, the claim as stated fails: a query with a 4096-byte request at
    position 0 returns 1024 bytes, the text followed by the rest of the
    buffer; a 4-byte request returns only "CPU "; a query at position 1024
    returns nothing; and when the sensor fails the text shows the stored
    38.000 degrees. *)
Lemma hello_read_returns_buffer_window :
  match hello_read (Some 45050) 4096 4096 0 booted with
  | Some (r, out, pos', _) =>
      r = 1024 /\ pos' = 1024 /\ List.length out = 1024%nat
      /\ out <> list_byte_of_string (temperature_text 45050)
      /\ firstn 29 out = list_byte_of_string (temperature_text 45050)
  | None => False
  end
  /\ match hello_read (Some 45050) 4096 4 0 booted with
     | Some (r, out, _, _) => r = 4 /\ out = list_byte_of_string "CPU "
     | None => False
     end
  /\ match hello_read (Some 45050) 4096 4096 1024 booted with
     | Some (r, out, _, _) => r = 0 /\ out = []
     | None => False
     end
  /\ match hello_read None 4096 4096 0 booted with
     | Some (r, out, _, _) =>
         firstn 28 out = list_byte_of_string (temperature_text 38000)
     | None => False
     end.
Proof.
  vm_compute.
  repeat match goal with |- _ /\ _ => split end; try reflexivity.
  intros H. apply (f_equal (@List.length byte)) in H. vm_compute in H.
  discriminate H.
Qed.

Lemma hello_read_size count pos :
  0 <= pos < Z.min count PROC_BUFFER_SIZE ->
  (if pos + Z.min count PROC_BUFFER_SIZE >? PROC_BUFFER_SIZE
   then to_size_t (PROC_BUFFER_SIZE - pos)
   else Z.min count PROC_BUFFER_SIZE) = Z.min count (PROC_BUFFER_SIZE - pos).
Proof.
  unfold PROC_BUFFER_SIZE. intros H. rewrite Z.gtb_ltb.
  destruct (Z.ltb_spec 1024 (pos + Z.min count 1024)).
  - rewrite to_size_t_small by lia. lia.
  - lia.
Qed.

(** C9 (as the code has it): every query first reads the sensor and stores
    the reading, keeping the stored temperature when the sensor fails. At a
    position at or past [min count 1024] it returns zero bytes. Otherwise it
    prints "CPU temperature = {int}.{frac} Grad\n", with {int} the stored
    temperature divided by 1000 and {frac} its remainder, at the start of the
    1024-byte buffer and returns the [min count (1024 - pos)] bytes of the
    buffer from the position on, advancing the position by that many; a
    query at position 0 whose request covers the text thus returns data that
    starts with exactly that text. *)
Theorem hello_read_window :
  forall (reading : option Z) (writable count pos : Z) (d : driver),
    0 <= pos -> 0 <= count ->
    (Z.min count PROC_BUFFER_SIZE <= pos ->
     exists d1,
       hello_read reading writable count pos d = Some (0, [], pos, d1)
       /\ temp d1 = sampled reading d)
    /\ (pos < Z.min count PROC_BUFFER_SIZE ->
        Z.min count (PROC_BUFFER_SIZE - pos) <= Z.max 0 writable ->
        exists d1,
          hello_read reading writable count pos d
          = Some (Z.min count (PROC_BUFFER_SIZE - pos),
                  firstn (Z.to_nat (Z.min count (PROC_BUFFER_SIZE - pos)))
                    (skipn (Z.to_nat pos)
                       (sprintf (procfs_buffer d)
                                (temperature_text (sampled reading d)))),
                  pos + Z.min count (PROC_BUFFER_SIZE - pos), d1)
          /\ temp d1 = sampled reading d
          /\ (pos = 0 ->
              Z.of_nat (String.length (temperature_text (sampled reading d)))
              <= Z.min count PROC_BUFFER_SIZE ->
              firstn (String.length (temperature_text (sampled reading d)))
                (firstn (Z.to_nat (Z.min count (PROC_BUFFER_SIZE - pos)))
                   (skipn (Z.to_nat pos)
                      (sprintf (procfs_buffer d)
                               (temperature_text (sampled reading d)))))
              = list_byte_of_string (temperature_text (sampled reading d)))).
Proof.
  intros reading writable count pos d Hpos Hcount. split.
  - intros Heof. unfold hello_read, thermal_zone_get_temp.
    destruct reading as [t|]; cbn [Z.eqb Z.opp EINVAL];
      cbn [procfs_buffer_size set_procfs_buffer_size];
      (replace (pos >=? Z.min count PROC_BUFFER_SIZE) with true
        by (symmetry; apply Z.geb_le; lia));
      eexists; split; reflexivity.
  - intros Hin Hw.
    assert (Hn : 0 <= Z.min count (PROC_BUFFER_SIZE - pos) <= 1024)
      by (unfold PROC_BUFFER_SIZE in *; lia).
    remember (Z.min count (PROC_BUFFER_SIZE - pos)) as N eqn:HN.
    unfold hello_read, thermal_zone_get_temp.
    destruct reading as [t|]; cbn [Z.eqb Z.opp EINVAL];
      cbn [procfs_buffer_size set_procfs_buffer_size set_procfs_buffer
           procfs_buffer temp set_temp pr_err set_klog sampled];
      (replace (pos >=? Z.min count PROC_BUFFER_SIZE) with false
        by (symmetry; rewrite Z.geb_leb; apply Z.leb_gt; lia));
      rewrite (Z.gtb_ltb (pos + _)); 
      (destruct (Z.ltb_spec PROC_BUFFER_SIZE (pos + Z.min count PROC_BUFFER_SIZE)) as [Hb|Hb];
       cbn [procfs_buffer_size set_procfs_buffer_size set_procfs_buffer
            procfs_buffer temp set_temp];
       (replace (pos <? 0) with false by (symmetry; apply Z.ltb_ge; lia));
       unfold copy_to_user).
    all: try (rewrite to_size_t_small by (unfold PROC_BUFFER_SIZE in *; lia)).
    all: match goal with
         | |- context [Z.min ?n (Z.max 0 ?w)] =>
             replace n with N by (unfold PROC_BUFFER_SIZE in *; lia);
             rewrite (Z.min_l _ (Z.max 0 w)) by lia
         end.
    all: rewrite Z.sub_diag;
      cbn [Z.eqb negb];
      rewrite to_ssize_t_small by lia.
    all: eexists; split; [reflexivity|]; split; [reflexivity|].
    all: intros -> Hfit; cbn [Z.to_nat skipn];
      rewrite firstn_firstn, Nat.min_l by (unfold PROC_BUFFER_SIZE in *; lia);
      apply sprintf_prefix.
Qed.

(** [cat] after boot with a sensor reading of 45.050 degrees: 1024 bytes
    that start with "CPU temperature = 45.50 Grad\n". *)
Lemma hello_read_window_witness :
  0 <= 0 /\ 0 <= 4096
  /\ exists out d1,
       hello_read (Some 45050) 4096 4096 0 booted = Some (1024, out, 1024, d1)
       /\ temp d1 = 45050
       /\ firstn 29 out = list_byte_of_string (temperature_text 45050).
Proof.
  assert (H0 : 0 <= 0) by (vm_compute; congruence).
  assert (H1 : 0 <= 4096) by (vm_compute; congruence).
  split; [exact H0 | split; [exact H1|]].
  destruct (hello_read_window (Some 45050) 4096 4096 0 booted H0 H1) as [_ Hin].
  destruct Hin as (d1 & Hrun & Htemp & Hpre);
    [vm_compute; reflexivity | vm_compute; congruence |].
  eexists; exists d1.
  split; [exact Hrun | split; [exact Htemp|]].
  apply Hpre; [reflexivity | vm_compute; congruence].
Defined.

(** * Further properties of the driver *)

(** ** Opening the loopback device *)

(** X1: the loopback device is opened exclusively. An open answers 0 or
    [-EBUSY]; a second open without a release in between always answers
    [-EBUSY]; a release makes the next open succeed; and neither call
    touches the stored bytes or their length. *)
Theorem dev_open_exclusive :
  forall d : driver,
    (fst (dev_open d) = 0 /\ is_open d = 0 \/
     fst (dev_open d) = - EBUSY /\ is_open d <> 0)
    /\ is_open (snd (dev_open d)) <> 0
    /\ fst (dev_open (snd (dev_open d))) = - EBUSY
    /\ fst (dev_open (snd (dev_release d))) = 0
    /\ data_size (snd (dev_open d)) = data_size d
    /\ data_buffer (snd (dev_open d)) = data_buffer d
    /\ data_size (snd (dev_release d)) = data_size d
    /\ data_buffer (snd (dev_release d)) = data_buffer d.
Proof.
  intros d. unfold dev_open, dev_release.
  destruct (Z.eqb_spec (is_open d) 0) as [E|E]; cbn -[String.append].
  - rewrite E. cbn. repeat split; try reflexivity; try (left; split; reflexivity).
    discriminate.
  - destruct (Z.eqb_spec (is_open d) 0) as [E'|_]; [contradiction|].
    cbn -[String.append]. repeat split; try reflexivity; try assumption.
    right. split; [reflexivity | assumption].
Qed.

(** ** The threshold attributes *)

(** X2: a threshold stored through its attribute is what the attribute
    shows afterwards, as decimal text with a newline, and the store reports
    the whole input as consumed; the other two thresholds keep their values;
    a store whose text is not a number changes nothing. *)
Theorem sysfs_store_show_round_trip :
  forall (v count : Z) (d : driver),
    - 2 ^ 31 <= v < 2 ^ 31 ->
    (fst (sysfs_green_store (Some v) count d) = count
     /\ snd (sysfs_green_show (snd (sysfs_green_store (Some v) count d)))
        = (fmt_d v ++ nl)%string
     /\ sysfs_yellow_show (snd (sysfs_green_store (Some v) count d)) = sysfs_yellow_show d
     /\ sysfs_red_show (snd (sysfs_green_store (Some v) count d)) = sysfs_red_show d)
    /\ (fst (sysfs_yellow_store (Some v) count d) = count
        /\ snd (sysfs_yellow_show (snd (sysfs_yellow_store (Some v) count d)))
           = (fmt_d v ++ nl)%string
        /\ sysfs_green_show (snd (sysfs_yellow_store (Some v) count d)) = sysfs_green_show d
        /\ sysfs_red_show (snd (sysfs_yellow_store (Some v) count d)) = sysfs_red_show d)
    /\ (fst (sysfs_red_store (Some v) count d) = count
        /\ snd (sysfs_red_show (snd (sysfs_red_store (Some v) count d)))
           = (fmt_d v ++ nl)%string
        /\ sysfs_green_show (snd (sysfs_red_store (Some v) count d)) = sysfs_green_show d
        /\ sysfs_yellow_show (snd (sysfs_red_store (Some v) count d)) = sysfs_yellow_show d)
    /\ (snd (sysfs_green_store None count d) = d
        /\ snd (sysfs_yellow_store None count d) = d
        /\ snd (sysfs_red_store None count d) = d).
Proof.
  intros v count d Hv.
  unfold sysfs_green_store, sysfs_yellow_store, sysfs_red_store,
    sysfs_green_show, sysfs_yellow_show, sysfs_red_show, sysfs_show.
  cbn [fst snd to_temp_green to_temp_yellow to_temp_red
       set_to_temp_green set_to_temp_yellow set_to_temp_red].
  rewrite (to_int_small v Hv). repeat split; reflexivity.
Qed.

(** Writing 80000 to the red ceiling and reading it back. *)
Lemma sysfs_store_show_round_trip_witness :
  (- 2 ^ 31 <= 80000 < 2 ^ 31)
  /\ snd (sysfs_red_show (snd (sysfs_red_store (Some 80000) 6 booted)))
     = ("80000" ++ nl)%string.
Proof.
  assert (H : - 2 ^ 31 <= 80000 < 2 ^ 31) by (vm_compute; split; congruence).
  split; [exact H|].
  destruct (sysfs_store_show_round_trip 80000 6 booted H)
    as (_ & _ & (_ & Hshow & _) & _).
  exact Hshow.
Defined.

(** ** What each entry point leaves alone *)

Ltac frame_in H :=
  cbv zeta in H; repeat head_if_in H; some_inv;
  repeat match goal with
         | |- context [if ?c then _ else _] => destruct c
         end.

Lemma dev_read_frame w len d r out d' :
  dev_read w len d = Some (r, out, d') ->
  leds d' = leds d /\ temp d' = temp d /\ thresholds d' = thresholds d
  /\ is_open d' = is_open d /\ data_buffer d' = data_buffer d.
Proof.
  unfold dev_read, copy_to_user. intros H.
  frame_in H; repeat split; reflexivity.
Qed.

Lemma dev_write_frame buffer len d r d' :
  dev_write buffer len d = Some (r, d') ->
  leds d' = leds d /\ temp d' = temp d /\ thresholds d' = thresholds d
  /\ is_open d' = is_open d.
Proof.
  unfold dev_write, copy_from_user. intros H.
  frame_in H; repeat split; reflexivity.
Qed.

Lemma hello_read_frame reading w count pos d r out pos' d' :
  hello_read reading w count pos d = Some (r, out, pos', d') ->
  leds d' = leds d /\ loopback d' = loopback d /\ thresholds d' = thresholds d
  /\ temp d' = sampled reading d.
Proof.
  unfold hello_read, thermal_zone_get_temp, copy_to_user.
  destruct reading; intros H; frame_in H; repeat split; reflexivity.
Qed.

Lemma timer_blink_callback_frame m2j jiffies d d' :
  timer_blink_callback m2j jiffies d = Some d' ->
  loopback d' = loopback d /\ thresholds d' = thresholds d /\ temp d' = temp d
  /\ timer_thermal d' = timer_thermal d /\ klog d' = klog d.
Proof.
  unfold timer_blink_callback, gpio_set_active.
  destruct (led_array_at (gpio_index d)); destruct (flag_timer d);
    cbn -[to_size_t]; intros H; some_inv; repeat split; reflexivity.
Qed.

Lemma hello_read_total reading w count pos d :
  0 <= count -> 0 <= pos ->
  exists r out pos' d', hello_read reading w count pos d = Some (r, out, pos', d').
Proof.
  intros Hc Hp. unfold hello_read, thermal_zone_get_temp, copy_to_user.
  replace (pos <? 0) with false by (symmetry; apply Z.ltb_ge; lia).
  destruct reading; cbv zeta;
    repeat match goal with
           | |- context [if ?c then _ else _] => destruct c
           end; repeat eexists.
Qed.

Lemma dev_write_total buffer len d :
  0 <= len <= INT_MAX ->
  exists r d', dev_write buffer len d = Some (r, d').
Proof.
  intros Hl. unfold INT_MAX, int_bits in Hl.
  replace (2 ^ (32 - 1) - 1) with 2147483647 in Hl by reflexivity.
  unfold dev_write. rewrite to_int_small by lia.
  cbn [data_size set_data_size].
  assert (Hd : (if len >? BUFFER_SIZE
                then set_data_size BUFFER_SIZE (set_data_size len d)
                else set_data_size len d) = set_data_size (Z.min len BUFFER_SIZE) d).
  { rewrite Z.gtb_ltb. destruct (Z.ltb_spec BUFFER_SIZE len).
    - rewrite Z.min_r by lia. reflexivity.
    - rewrite Z.min_l by lia. reflexivity. }
  rewrite Hd. cbn [data_size set_data_size data_buffer].
  rewrite to_size_t_small by (unfold BUFFER_SIZE; lia).
  replace (Z.min len BUFFER_SIZE >? BUFFER_SIZE) with false
    by (symmetry; rewrite Z.gtb_ltb; apply Z.ltb_ge; lia).
  unfold copy_from_user. destruct (negb _); repeat eexists.
Qed.

Lemma dev_read_total w len d :
  0 <= data_size d <= BUFFER_SIZE -> 0 <= len ->
  exists r out d', dev_read w len d = Some (r, out, d').
Proof.
  intros Hsz Hlen.
  destruct (Z_le_gt_dec (Z.min len (data_size d)) (Z.max 0 w)) as [Hw|Hw].
  - rewrite (dev_read_success w len d Hsz Hlen Hw). repeat eexists.
  - destruct (dev_read_fault w len d Hsz Hlen) as (o & d' & Hf & _); [lia|].
    rewrite Hf. repeat eexists.
Qed.

(** X3: the character device, the proc file and the threshold attributes
    never touch the LEDs: the active index, the blink flag, both timers and
    the levels written to the lines are the same after any of their calls. *)
Theorem files_leave_leds_alone :
  forall d : driver,
    leds (snd (dev_open d)) = leds d
    /\ leds (snd (dev_release d)) = leds d
    /\ (forall w len r out d', dev_read w len d = Some (r, out, d') ->
                               leds d' = leds d)
    /\ (forall buffer len r d', dev_write buffer len d = Some (r, d') ->
                                leds d' = leds d)
    /\ (forall rd w count pos r out pos' d',
           hello_read rd w count pos d = Some (r, out, pos', d') ->
           leds d' = leds d)
    /\ (forall parsed count,
           leds (snd (sysfs_green_store parsed count d)) = leds d
           /\ leds (snd (sysfs_yellow_store parsed count d)) = leds d
           /\ leds (snd (sysfs_red_store parsed count d)) = leds d).
Proof.
  intros d.
  split; [unfold dev_open; destruct (negb _); reflexivity|].
  split; [reflexivity|].
  split; [intros w len r out d' H; exact (proj1 (dev_read_frame _ _ _ _ _ _ H))|].
  split; [intros b len r d' H; exact (proj1 (dev_write_frame _ _ _ _ _ H))|].
  split; [intros rd w c p r out p' d' H;
          exact (proj1 (hello_read_frame _ _ _ _ _ _ _ _ _ H))|].
  intros [v|] count; repeat split; reflexivity.
Qed.

(** X4: the three thresholds change only through their attributes: both
    timer callbacks, the character device and the proc file leave them as
    they are. *)
Theorem thresholds_change_only_by_store :
  forall (msecs_to_jiffies : Z -> Z) (d : driver),
    (forall j reading,
        thresholds (thermal_callback msecs_to_jiffies j reading d) = thresholds d)
    /\ (forall j d', timer_blink_callback msecs_to_jiffies j d = Some d' ->
                     thresholds d' = thresholds d)
    /\ thresholds (snd (dev_open d)) = thresholds d
    /\ thresholds (snd (dev_release d)) = thresholds d
    /\ (forall w len r out d', dev_read w len d = Some (r, out, d') ->
                               thresholds d' = thresholds d)
    /\ (forall buffer len r d', dev_write buffer len d = Some (r, d') ->
                                thresholds d' = thresholds d)
    /\ (forall rd w count pos r out pos' d',
           hello_read rd w count pos d = Some (r, out, pos', d') ->
           thresholds d' = thresholds d).
Proof.
  intros m2j d.
  split.
  { intros j reading.
    destruct (thermal_callback_keeps m2j j reading d) as (_ & _ & Hg & Hy & Hr & _).
    unfold thresholds. rewrite Hg, Hy, Hr. reflexivity. }
  split; [intros j d' H; exact (proj1 (proj2 (timer_blink_callback_frame _ _ _ _ H)))|].
  split; [unfold dev_open; destruct (negb _); reflexivity|].
  split; [reflexivity|].
  split; [intros w len r out d' H;
          exact (proj1 (proj2 (proj2 (dev_read_frame _ _ _ _ _ _ H))))|].
  split; [intros b len r d' H;
          exact (proj1 (proj2 (proj2 (dev_write_frame _ _ _ _ _ H))))|].
  intros rd w c p r out p' d' H.
  exact (proj1 (proj2 (proj2 (hello_read_frame _ _ _ _ _ _ _ _ _ H)))).
Qed.

(** ** Levels of the lines *)

Lemma gpio_level_set line value g d :
  gpio_level g (gpio_set_value line value d)
  = if line =? g then Some value else gpio_level g d.
Proof.
  unfold gpio_level, gpio_set_value. cbn [gpio_writes set_gpio_writes find fst].
  destruct (line =? g); reflexivity.
Qed.

Lemma timer_blink_callback_step m2j jiffies d led :
  led_array_at (gpio_index d) = Some led ->
  timer_blink_callback m2j jiffies d
  = Some (set_flag_timer (negb (flag_timer d))
            (mod_timer_blink (jiffies + m2j (if flag_timer d then 1 else 10))
               (gpio_set_value (gpio_nr led) (if flag_timer d then 1 else 0) d))).
Proof.
  intros Hled. unfold timer_blink_callback, gpio_set_active. rewrite Hled.
  destruct (flag_timer d) eqn:Hf; cbn -[to_size_t]; rewrite Hf; reflexivity.
Qed.

(** X5: a firing of the blink callback changes the level of one line only,
    the one at the current active index: that line goes low when the flag
    was clear and high when it was set, and every other line keeps the level
    it had. *)
Theorem timer_blink_callback_toggles_active_only :
  forall (msecs_to_jiffies : Z -> Z) (jiffies : Z) (d d' : driver) (led : gpio),
    led_array_at (gpio_index d) = Some led ->
    timer_blink_callback msecs_to_jiffies jiffies d = Some d' ->
    gpio_level (gpio_nr led) d' = Some (if flag_timer d then 1 else 0)
    /\ forall g, g <> gpio_nr led -> gpio_level g d' = gpio_level g d.
Proof.
  intros m2j jiffies d d' led Hled Hrun.
  rewrite (timer_blink_callback_step m2j jiffies d led Hled) in Hrun.
  some_inv. split.
  - change (gpio_level (gpio_nr led)
              (gpio_set_value (gpio_nr led) (if flag_timer d then 1 else 0) d)
            = Some (if flag_timer d then 1 else 0)).
    rewrite gpio_level_set, Z.eqb_refl. reflexivity.
  - intros g Hg.
    change (gpio_level g
              (gpio_set_value (gpio_nr led) (if flag_timer d then 1 else 0) d)
            = gpio_level g d).
    rewrite gpio_level_set.
    destruct (Z.eqb_spec (gpio_nr led) g); [congruence | reflexivity].
Qed.

(** The first firing after boot: RED goes low, YELLOW and GREEN stay high. *)
Lemma timer_blink_callback_toggles_active_only_witness :
  exists d',
    timer_blink_callback hz100 1500 booted = Some d'
    /\ gpio_level GPIO_5 d' = Some 0
    /\ gpio_level GPIO_6 d' = Some 1
    /\ gpio_level GPIO_26 d' = Some 1.
Proof.
  assert (Hled : led_array_at (gpio_index booted)
                 = Some (mkGpio GPIO_5 GPIOF_OUT_INIT_HIGH "LED_5"))
    by (vm_compute; reflexivity).
  destruct (timer_blink_callback hz100 1500 booted) as [d'|] eqn:Hrun;
    [| vm_compute in Hrun; discriminate Hrun].
  destruct (timer_blink_callback_toggles_active_only hz100 1500 booted d' _ Hled Hrun)
    as [Hact Hrest].
  exists d'. split; [reflexivity|].
  split; [exact Hact|].
  split.
  - rewrite (Hrest GPIO_6); [vm_compute; reflexivity | vm_compute; congruence].
  - rewrite (Hrest GPIO_26); [vm_compute; reflexivity | vm_compute; congruence].
Defined.

Lemma shows_levels b d d' l :
  shows b d d' -> gpio_level (led_line l) d' = Some (mode_level (pattern b l)).
Proof.
  intros [_ Hw]. unfold gpio_level. rewrite Hw.
  destruct l; reflexivity.
Qed.

(** X6: after a sample the three lines are at the levels of the band's
    pattern, with the active line high; the blink firing that follows moves
    the active line only, so in LOW, MID and HIGH the other two LEDs stay
    dark and in CRITICAL YELLOW and GREEN stay lit while RED blinks. *)
Theorem sample_then_blink_levels :
  forall (msecs_to_jiffies : Z -> Z) (j1 j2 : Z) (reading : option Z) (d : driver),
    (forall l,
        gpio_level (led_line l) (thermal_callback msecs_to_jiffies j1 reading d)
        = Some (mode_level (pattern (classify (sampled reading d) (thresholds d)) l)))
    /\ exists d2,
        timer_blink_callback msecs_to_jiffies j2
          (thermal_callback msecs_to_jiffies j1 reading d) = Some d2
        /\ gpio_level
             (led_line (blinking (classify (sampled reading d) (thresholds d)))) d2
           = Some (if flag_timer d then 1 else 0)
        /\ forall l,
            l <> blinking (classify (sampled reading d) (thresholds d)) ->
            gpio_level (led_line l) d2
            = Some (mode_level
                      (pattern (classify (sampled reading d) (thresholds d)) l)).
Proof.
  intros m2j j1 j2 reading d.
  pose proof (thermal_callback_shows m2j j1 reading d) as Hs.
  pose proof (thermal_callback_keeps m2j j1 reading d) as (Hf & _).
  set (b := classify (sampled reading d) (thresholds d)) in *.
  set (d1 := thermal_callback m2j j1 reading d) in *.
  clearbody b d1.
  split; [intros l; exact (shows_levels b d d1 l Hs)|].
  assert (Hled : exists led, led_array_at (gpio_index d1) = Some led
                             /\ gpio_nr led = led_line (blinking b)).
  { rewrite (proj1 Hs). destruct b; eexists; split; reflexivity. }
  destruct Hled as (led & Hled & Hline).
  eexists. split; [exact (timer_blink_callback_step m2j j2 d1 led Hled)|].
  cbn [gpio_level gpio_writes set_flag_timer mod_timer_blink set_timer_blink].
  split.
  - change (gpio_level (led_line (blinking b))
              (gpio_set_value (gpio_nr led) (if flag_timer d1 then 1 else 0) d1)
            = Some (if flag_timer d then 1 else 0)).
    rewrite gpio_level_set, Hline, Z.eqb_refl, Hf. reflexivity.
  - intros l Hl.
    change (gpio_level (led_line l)
              (gpio_set_value (gpio_nr led) (if flag_timer d1 then 1 else 0) d1)
            = Some (mode_level (pattern b l))).
    rewrite gpio_level_set, Hline.
    replace (led_line (blinking b) =? led_line l) with false
      by (destruct b, l; try reflexivity; cbn [blinking] in Hl; congruence).
    exact (shows_levels b d d1 l Hs).
Qed.

(** ** Runs *)

Lemma loopback_buffer_ok d d' : loopback d' = loopback d -> buffer_ok d -> buffer_ok d'.
Proof.
  unfold loopback, buffer_ok. intros H. injection H as _ Hs Hb.
  rewrite Hs, Hb. tauto.
Qed.

(** X7: left to itself the blink callback never leaves [led_array] and
    strictly alternates: after [n] firings the flag is back where it was for
    even [n] and negated for odd [n], the active index is untouched, exactly
    [n] line writes were made, and after the last firing the active line is
    low with the timer set 10 ms ahead when the flag is set, high with the
    timer 1 ms ahead when it is clear. *)
Theorem blink_run_alternates :
  forall (msecs_to_jiffies : Z -> Z) (tick : nat -> Z) (n : nat) (d : driver),
    index_ok d ->
    exists d',
      blink_run msecs_to_jiffies tick n d = Some d'
      /\ gpio_index d' = gpio_index d
      /\ flag_timer d' = (if Nat.even n then flag_timer d else negb (flag_timer d))
      /\ List.length (gpio_writes d') = (n + List.length (gpio_writes d))%nat
      /\ loopback d' = loopback d
      /\ (n <> 0%nat ->
          exists led,
            led_array_at (gpio_index d) = Some led
            /\ gpio_level (gpio_nr led) d' = Some (if flag_timer d' then 0 else 1)
            /\ timer_blink d'
               = Some (to_size_t (tick (Nat.pred n)
                                  + msecs_to_jiffies (if flag_timer d' then 10 else 1)))).
Proof.
  intros m2j tick n d Hd. induction n as [|k IH].
  - exists d. cbn. repeat split; try reflexivity. intros H; contradiction.
  - destruct IH as (dk & Hrun & Hidx & Hflag & Hlen & Hloop & _).
    assert (Hdk : index_ok dk) by (unfold index_ok; rewrite Hidx; exact Hd).
    destruct (led_array_at_ok (gpio_index dk) Hdk) as (led & Hled & _).
    cbn [blink_run]. rewrite Hrun.
    rewrite (timer_blink_callback_step m2j (tick k) dk led Hled).
    eexists. split; [reflexivity|].
    split; [exact Hidx|].
    split.
    { cbn [flag_timer set_flag_timer]. rewrite Hflag, Nat.even_succ, <- Nat.negb_even.
      destruct (Nat.even k), (flag_timer d); reflexivity. }
    split; [cbn; rewrite Hlen; reflexivity|].
    split; [exact Hloop|].
    intros _. exists led. rewrite <- Hidx. split; [exact Hled|].
    cbn [flag_timer set_flag_timer Nat.pred].
    split.
    + change (gpio_level (gpio_nr led)
                (gpio_set_value (gpio_nr led) (if flag_timer dk then 1 else 0) dk)
              = Some (if negb (flag_timer dk) then 0 else 1)).
      rewrite gpio_level_set, Z.eqb_refl. destruct (flag_timer dk); reflexivity.
    + cbn -[to_size_t]. destruct (flag_timer dk); reflexivity.
Qed.

(** Four firings after boot bring the flag back. *)
Lemma blink_run_alternates_witness :
  index_ok booted
  /\ exists d',
       blink_run hz100 (fun k => 1500 + Z.of_nat k) 4 booted = Some d'
       /\ flag_timer d' = flag_timer booted
       /\ List.length (gpio_writes d') = (4 + List.length (gpio_writes booted))%nat.
Proof.
  assert (H : index_ok booted) by (vm_compute; split; congruence).
  split; [exact H|].
  destruct (blink_run_alternates hz100 (fun k => 1500 + Z.of_nat k) 4 booted H)
    as (d' & Hrun & _ & Hflag & Hlen & _).
  exists d'. split; [exact Hrun | split; [exact Hflag | exact Hlen]].
Defined.

Lemma exec_keeps_invariants m2j e d :
  index_ok d -> buffer_ok d -> entry_ok e ->
  exists d', exec m2j e d = Some d' /\ index_ok d' /\ buffer_ok d'.
Proof.
  intros Hi Hb He. destruct e as [j | j rd | | | w len | buf len | rd w c p
                                  | [v|] c | [v|] c | [v|] c];
    cbn [exec entry_ok] in *.
  - destruct (led_array_at_ok (gpio_index d) Hi) as (led & Hled & _).
    pose proof (timer_blink_callback_step m2j j d led Hled) as Hrun.
    eexists. split; [exact Hrun|].
    split; [exact Hi|]. exact Hb.
  - eexists. split; [reflexivity|].
    pose proof (thermal_callback_shows m2j j rd d) as [Hs _].
    pose proof (thermal_callback_keeps m2j j rd d) as (_ & _ & _ & _ & _ & Hsz & Hbuf).
    split.
    + unfold index_ok. rewrite Hs.
      destruct (classify (sampled rd d) (thresholds d)); cbn; lia.
    + unfold buffer_ok. cbv zeta in Hsz, Hbuf. rewrite Hsz, Hbuf. exact Hb.
  - eexists. split; [reflexivity|].
    unfold dev_open. destruct (negb _); split; assumption.
  - eexists. split; [reflexivity|]. split; assumption.
  - destruct (dev_read_total w len d (proj2 Hb) He) as (r & out & d' & Hrun).
    rewrite Hrun. exists d'. split; [reflexivity|].
    split.
    + unfold index_ok. rewrite (dev_read_index _ _ _ _ _ _ Hrun). exact Hi.
    + exact (dev_read_buffer_ok _ _ _ _ _ _ Hb Hrun).
  - destruct (dev_write_total buf len d He) as (r & d' & Hrun).
    rewrite Hrun. exists d'. split; [reflexivity|].
    split.
    + unfold index_ok. rewrite (dev_write_index _ _ _ _ _ Hrun). exact Hi.
    + exact (dev_write_buffer_ok _ _ _ _ _ Hb He Hrun).
  - destruct (hello_read_total rd w c p d (proj1 He) (proj2 He))
      as (r & out & p' & d' & Hrun).
    rewrite Hrun. exists d'. split; [reflexivity|].
    split.
    + unfold index_ok. rewrite (hello_read_index _ _ _ _ _ _ _ _ _ Hrun). exact Hi.
    + destruct (hello_read_frame _ _ _ _ _ _ _ _ _ Hrun) as (_ & Hl & _).
      exact (loopback_buffer_ok _ _ Hl Hb).
  - eexists. split; [reflexivity|]. split; assumption.
  - eexists. split; [reflexivity|]. split; assumption.
  - eexists. split; [reflexivity|]. split; assumption.
  - eexists. split; [reflexivity|]. split; assumption.
  - eexists. split; [reflexivity|]. split; assumption.
  - eexists. split; [reflexivity|]. split; assumption.
Qed.

(** X8: whatever the kernel calls after the module is loaded, in whatever
    order, no call indexes outside [led_array] or copies past the end of
    [data_buffer]: the active index stays in 0..2, the recorded length stays
    in 0..1024 and the array keeps its 1024 bytes. The arguments are those
    the VFS can pass. *)
Theorem run_never_leaves_arrays :
  forall (msecs_to_jiffies : Z -> Z) (es : list entry) (d : driver),
    index_ok d -> buffer_ok d -> Forall entry_ok es ->
    exists d',
      run msecs_to_jiffies es d = Some d' /\ index_ok d' /\ buffer_ok d'.
Proof.
  intros m2j es. induction es as [|e es IH]; intros d Hi Hb Hes.
  - exists d. split; [reflexivity | split; assumption].
  - inversion Hes as [|e' es' He Hes']; subst.
    destruct (exec_keeps_invariants m2j e d Hi Hb He) as (d1 & Hrun & Hi1 & Hb1).
    destruct (IH d1 Hi1 Hb1 Hes') as (d' & Hrun' & Hi' & Hb').
    exists d'. cbn [run]. rewrite Hrun. split; [exact Hrun' | split; assumption].
Qed.

Lemma session_ok : Forall entry_ok session.
Proof.
  unfold session. repeat constructor; cbn; try (vm_compute; congruence).
Qed.

(** The sample session after boot. *)
Lemma run_never_leaves_arrays_witness :
  index_ok booted /\ buffer_ok booted /\ Forall entry_ok session
  /\ exists d', run hz100 session booted = Some d' /\ index_ok d' /\ buffer_ok d'.
Proof.
  destruct booted_invariants as [Hi Hb].
  split; [exact Hi | split; [exact Hb | split; [exact session_ok|]]].
  exact (run_never_leaves_arrays hz100 session booted Hi Hb session_ok).
Defined.

(** ** Faults and retries *)

(** X9: a read whose destination cannot take the bytes answers [-EFAULT],
    logs the failure and keeps the stored bytes and their length, so the
    same read repeated with a good destination still returns the data. *)
Theorem dev_read_fault_then_retry :
  forall (writable writable2 len : Z) (d : driver),
    0 <= data_size d <= BUFFER_SIZE ->
    0 <= len ->
    Z.max 0 writable < Z.min len (data_size d) ->
    Z.min len (data_size d) <= Z.max 0 writable2 ->
    exists out d1 d2,
      dev_read writable len d = Some (- EFAULT, out, d1)
      /\ data_size d1 = data_size d
      /\ data_buffer d1 = data_buffer d
      /\ dev_read writable2 len d1
         = Some (Z.min len (data_size d),
                 firstn (Z.to_nat (Z.min len (data_size d))) (data_buffer d), d2).
Proof.
  intros w w2 len d Hsz Hlen Hw Hw2.
  destruct (dev_read_fault w len d Hsz Hlen Hw) as (out & d1 & Hrun & Hs & Hb).
  exists out, d1. eexists.
  split; [exact Hrun|]. split; [exact Hs|]. split; [exact Hb|].
  rewrite <- Hs, <- Hb. apply dev_read_success; rewrite ?Hs; assumption.
Qed.

(** "abc" stored, a read into a one-byte destination, then a proper read. *)
Lemma dev_read_fault_then_retry_witness :
  (0 <= data_size holding_abc <= BUFFER_SIZE)
  /\ exists out d1 d2,
       dev_read 1 4096 holding_abc = Some (- EFAULT, out, d1)
       /\ dev_read 4096 4096 d1 = Some (3, abc, d2).
Proof.
  assert (H1 : 0 <= data_size holding_abc <= BUFFER_SIZE)
    by (vm_compute; split; congruence).
  assert (H2 : 0 <= 4096) by (vm_compute; congruence).
  split; [exact H1|].
  destruct (dev_read_fault_then_retry 1 4096 4096 holding_abc H1 H2)
    as (out & d1 & d2 & Hf & _ & _ & Hr);
    [vm_compute; reflexivity | vm_compute; congruence |].
  exists out, d1, d2. split; [exact Hf | exact Hr].
Defined.

(** ** Reading the proc file in pieces *)

Lemma hello_read_eof reading w count pos d :
  Z.min count PROC_BUFFER_SIZE <= pos ->
  exists d1, hello_read reading w count pos d = Some (0, [], pos, d1)
             /\ temp d1 = sampled reading d.
Proof.
  intros Heof. unfold hello_read, thermal_zone_get_temp.
  destruct reading as [t|]; cbn [Z.eqb Z.opp EINVAL];
    cbn [procfs_buffer_size set_procfs_buffer_size];
    (replace (pos >=? Z.min count PROC_BUFFER_SIZE) with true
      by (symmetry; apply Z.geb_le; lia));
    eexists; split; reflexivity.
Qed.

Lemma hello_read_cases reading w count pos d :
  0 <= pos < Z.min count PROC_BUFFER_SIZE ->
  exists d1,
    temp d1 = sampled reading d
    /\ hello_read reading w count pos d
       = if Z.max 0 w <? Z.min count (PROC_BUFFER_SIZE - pos)
         then Some (- EFAULT,
                    firstn (Z.to_nat (Z.max 0 w))
                      (skipn (Z.to_nat pos)
                         (sprintf (procfs_buffer d)
                                  (temperature_text (sampled reading d)))),
                    pos, d1)
         else Some (Z.min count (PROC_BUFFER_SIZE - pos),
                    firstn (Z.to_nat (Z.min count (PROC_BUFFER_SIZE - pos)))
                      (skipn (Z.to_nat pos)
                         (sprintf (procfs_buffer d)
                                  (temperature_text (sampled reading d)))),
                    pos + Z.min count (PROC_BUFFER_SIZE - pos), d1).
Proof.
  intros Hin.
  assert (Hn : 0 < Z.min count (PROC_BUFFER_SIZE - pos) <= 1024)
    by (unfold PROC_BUFFER_SIZE in *; lia).
  remember (Z.min count (PROC_BUFFER_SIZE - pos)) as N eqn:HN.
  unfold hello_read, thermal_zone_get_temp.
  destruct reading as [t|]; cbn [Z.eqb Z.opp EINVAL];
    cbn [procfs_buffer_size set_procfs_buffer_size set_procfs_buffer
         procfs_buffer temp set_temp pr_err set_klog sampled];
    (replace (pos >=? Z.min count PROC_BUFFER_SIZE) with false
      by (symmetry; rewrite Z.geb_leb; apply Z.leb_gt; lia));
    rewrite (Z.gtb_ltb (pos + _));
    (destruct (Z.ltb_spec PROC_BUFFER_SIZE (pos + Z.min count PROC_BUFFER_SIZE)) as [Hb|Hb];
     cbn [procfs_buffer_size set_procfs_buffer_size set_procfs_buffer
          procfs_buffer temp set_temp];
     (replace (pos <? 0) with false by (symmetry; apply Z.ltb_ge; lia));
     unfold copy_to_user).
  all: try (rewrite to_size_t_small by (unfold PROC_BUFFER_SIZE in *; lia)).
  all: match goal with
       | |- context [Z.min ?n (Z.max 0 ?w)] =>
           replace n with N by (unfold PROC_BUFFER_SIZE in *; lia);
           destruct (Z.ltb_spec (Z.max 0 w) N) as [Hf|Hf];
           [ rewrite (Z.min_r _ (Z.max 0 w)) by lia;
             replace (N - Z.max 0 w =? 0) with false
               by (symmetry; apply Z.eqb_neq; lia)
           | rewrite (Z.min_l _ (Z.max 0 w)) by lia; rewrite Z.sub_diag;
             rewrite to_ssize_t_small by lia ]
       end.
  all: cbn [Z.eqb negb]; eexists; (split; [| reflexivity]); reflexivity.
Qed.

(** X10: the proc file can be read once per position 0: a first read with a
    positive [count] returns [min count 1024] bytes of the buffer that holds
    the text and moves the position there; the next read with the same
    [count] then returns zero bytes, whatever the sensor says. A reader with
    a small buffer gets the first [count] bytes of the text and then end of
    file. *)
Theorem hello_read_once :
  forall (reading reading2 : option Z) (writable writable2 count : Z) (d : driver),
    0 < count ->
    Z.min count PROC_BUFFER_SIZE <= Z.max 0 writable ->
    exists d1 d2,
      hello_read reading writable count 0 d
      = Some (Z.min count PROC_BUFFER_SIZE,
              firstn (Z.to_nat (Z.min count PROC_BUFFER_SIZE))
                (sprintf (procfs_buffer d) (temperature_text (sampled reading d))),
              Z.min count PROC_BUFFER_SIZE, d1)
      /\ hello_read reading2 writable2 count (Z.min count PROC_BUFFER_SIZE) d1
         = Some (0, [], Z.min count PROC_BUFFER_SIZE, d2).
Proof.
  intros rd rd2 w w2 count d Hc Hw.
  destruct (hello_read_cases rd w count 0 d) as (d1 & _ & Hrun);
    [unfold PROC_BUFFER_SIZE; lia|].
  rewrite Z.sub_0_r in Hrun.
  replace (Z.max 0 w <? Z.min count PROC_BUFFER_SIZE) with false in Hrun
    by (symmetry; apply Z.ltb_ge; lia).
  destruct (hello_read_eof rd2 w2 count (Z.min count PROC_BUFFER_SIZE) d1)
    as (d2 & Hrun2 & _); [lia|].
  exists d1, d2. split; [exact Hrun | exact Hrun2].
Qed.

(** A reader that asks for 10 bytes at a time gets "CPU temper" and then
    end of file. *)
Lemma hello_read_once_witness :
  0 < 10 /\ Z.min 10 PROC_BUFFER_SIZE <= Z.max 0 10
  /\ exists d1 d2,
       hello_read (Some 45050) 10 10 0 booted
       = Some (10, list_byte_of_string "CPU temper", 10, d1)
       /\ hello_read (Some 45050) 10 10 10 d1 = Some (0, [], 10, d2).
Proof.
  assert (H1 : 0 < 10) by reflexivity.
  assert (H2 : Z.min 10 PROC_BUFFER_SIZE <= Z.max 0 10) by (vm_compute; congruence).
  split; [exact H1 | split; [exact H2|]].
  destruct (hello_read_once (Some 45050) (Some 45050) 10 10 10 booted H1 H2)
    as (d1 & d2 & Hr1 & Hr2).
  exists d1, d2. split; [exact Hr1 | exact Hr2].
Defined.

(** X11: when the reader's buffer cannot take the bytes the proc read
    answers [-EFAULT] and the file position stays where it was; the sensor
    has been read and its value stored all the same. *)
Theorem hello_read_fault :
  forall (reading : option Z) (writable count pos : Z) (d : driver),
    0 <= pos < Z.min count PROC_BUFFER_SIZE ->
    Z.max 0 writable < Z.min count (PROC_BUFFER_SIZE - pos) ->
    exists out d1,
      hello_read reading writable count pos d = Some (- EFAULT, out, pos, d1)
      /\ temp d1 = sampled reading d.
Proof.
  intros rd w count pos d Hin Hw.
  destruct (hello_read_cases rd w count pos d Hin) as (d1 & Ht & Hrun).
  replace (Z.max 0 w <? Z.min count (PROC_BUFFER_SIZE - pos)) with true in Hrun
    by (symmetry; apply Z.ltb_lt; exact Hw).
  eexists; exists d1. split; [exact Hrun | exact Ht].
Qed.

(** A 4096-byte request into a buffer that takes 16 bytes. *)
Lemma hello_read_fault_witness :
  (0 <= 0 < Z.min 4096 PROC_BUFFER_SIZE)
  /\ exists out d1,
       hello_read (Some 45050) 16 4096 0 booted = Some (- EFAULT, out, 0, d1)
       /\ temp d1 = 45050.
Proof.
  assert (H1 : 0 <= 0 < Z.min 4096 PROC_BUFFER_SIZE)
    by (vm_compute; split; congruence).
  split; [exact H1|].
  destruct (hello_read_fault (Some 45050) 16 4096 0 booted H1)
    as (out & d1 & Hrun & Ht); [vm_compute; reflexivity|].
  exists out, d1. split; [exact Hrun | exact Ht].
Defined.

(** ** How the entry points feed the sample callback *)

(** X12: the proc file and the sample callback share the stored
    temperature: a value read by a proc query is what the next sample
    classifies when its own sensor read fails. *)
Theorem proc_read_feeds_failed_sample :
  forall (msecs_to_jiffies : Z -> Z) (jiffies t writable count pos : Z)
         (d d1 : driver) (r : Z) (out : list byte) (pos' : Z),
    hello_read (Some t) writable count pos d = Some (r, out, pos', d1) ->
    temp (thermal_callback msecs_to_jiffies jiffies None d1) = t
    /\ shows (classify t (thresholds d)) d1
             (thermal_callback msecs_to_jiffies jiffies None d1).
Proof.
  intros m2j jiffies t w count pos d d1 r out pos' Hrun.
  destruct (hello_read_frame _ _ _ _ _ _ _ _ _ Hrun) as (_ & _ & Hth & Ht).
  cbn [sampled] in Ht.
  pose proof (thermal_callback_shows m2j jiffies None d1) as Hs.
  pose proof (thermal_callback_temp m2j jiffies None d1) as Htemp.
  cbn [sampled] in Hs, Htemp. rewrite Ht, Hth in Hs. rewrite Ht in Htemp.
  split; [exact Htemp | exact Hs].
Qed.

(** After boot at 38.000 degrees a proc query reads 80.000; the sample that
    follows cannot read the sensor and shows CRITICAL. *)
Lemma proc_read_feeds_failed_sample_witness :
  exists d1,
    option_map snd (hello_read (Some 80000) 4096 4096 0 booted) = Some d1
    /\ shows CRITICAL d1 (thermal_callback hz100 1500 None d1).
Proof.
  destruct (hello_read (Some 80000) 4096 4096 0 booted)
    as [[[[r out] pos'] d1]|] eqn:Hrun; [| vm_compute in Hrun; discriminate Hrun].
  exists d1. split; [reflexivity|].
  exact (proj2 (proc_read_feeds_failed_sample hz100 1500 80000 4096 4096 0
                  booted d1 r out pos' Hrun)).
Defined.

(** X13: a threshold written through its attribute is the one the next
    sample compares against. *)
Theorem stored_threshold_used_by_next_sample :
  forall (msecs_to_jiffies : Z -> Z) (jiffies v count : Z) (reading : option Z)
         (d : driver),
    - 2 ^ 31 <= v < 2 ^ 31 ->
    shows (classify (sampled reading d)
             (mkThresholds v (to_temp_yellow d) (to_temp_red d)))
          (snd (sysfs_green_store (Some v) count d))
          (thermal_callback msecs_to_jiffies jiffies reading
             (snd (sysfs_green_store (Some v) count d)))
    /\ shows (classify (sampled reading d)
                (mkThresholds (to_temp_green d) v (to_temp_red d)))
             (snd (sysfs_yellow_store (Some v) count d))
             (thermal_callback msecs_to_jiffies jiffies reading
                (snd (sysfs_yellow_store (Some v) count d)))
    /\ shows (classify (sampled reading d)
                (mkThresholds (to_temp_green d) (to_temp_yellow d) v))
             (snd (sysfs_red_store (Some v) count d))
             (thermal_callback msecs_to_jiffies jiffies reading
                (snd (sysfs_red_store (Some v) count d))).
Proof.
  intros m2j jiffies v count reading d Hv.
  pose proof (thermal_callback_shows m2j jiffies reading
                (snd (sysfs_green_store (Some v) count d))) as Hg.
  pose proof (thermal_callback_shows m2j jiffies reading
                (snd (sysfs_yellow_store (Some v) count d))) as Hy.
  pose proof (thermal_callback_shows m2j jiffies reading
                (snd (sysfs_red_store (Some v) count d))) as Hr.
  unfold sysfs_green_store, sysfs_yellow_store, sysfs_red_store in *.
  cbn [snd] in *.
  unfold thresholds in Hg, Hy, Hr.
  cbn [to_temp_green to_temp_yellow to_temp_red
       set_to_temp_green set_to_temp_yellow set_to_temp_red] in Hg, Hy, Hr.
  rewrite (to_int_small v Hv) in Hg, Hy, Hr.
  assert (Hsg : sampled reading (set_to_temp_green v d) = sampled reading d)
    by (destruct reading; reflexivity).
  assert (Hsy : sampled reading (set_to_temp_yellow v d) = sampled reading d)
    by (destruct reading; reflexivity).
  assert (Hsr : sampled reading (set_to_temp_red v d) = sampled reading d)
    by (destruct reading; reflexivity).
  rewrite (to_int_small v Hv).
  rewrite Hsg in Hg. rewrite Hsy in Hy. rewrite Hsr in Hr.
  split; [exact Hg | split; [exact Hy | exact Hr]].
Qed.

(** Raising the green ceiling to 50.000 makes 45.000 degrees LOW. *)
Lemma stored_threshold_used_by_next_sample_witness :
  (- 2 ^ 31 <= 50000 < 2 ^ 31)
  /\ shows LOW (snd (sysfs_green_store (Some 50000) 6 booted))
       (thermal_callback hz100 1500 (Some 45000)
          (snd (sysfs_green_store (Some 50000) 6 booted))).
Proof.
  assert (H : - 2 ^ 31 <= 50000 < 2 ^ 31) by (vm_compute; split; congruence).
  split; [exact H|].
  exact (proj1 (stored_threshold_used_by_next_sample hz100 1500 50000 6
                  (Some 45000) booted H)).
Defined.

(** ** Loading and unloading the module *)

Lemma init_succeeds_inv env :
  init_succeeds env = true ->
  (alloc_chrdev_region_ret env <? 0) = false
  /\ (cdev_add_ret env <? 0) = false
  /\ class_create_is_err env = false
  /\ device_create_is_err env = false
  /\ (sysfs_create_green_ret env =? 0) = true
  /\ (sysfs_create_yellow_ret env =? 0) = true
  /\ (sysfs_create_red_ret env =? 0) = true
  /\ proc_mkdir_null env = false
  /\ proc_create_null env = false
  /\ (gpio_request_array_ret env =? 0) = true
  /\ tz_null env = false.
Proof.
  unfold init_succeeds. rewrite !andb_true_iff, !negb_true_iff. tauto.
Qed.

(** The globals after a load in which every step succeeds. *)
Lemma temp_led_init_success_eq m2j env jiffies d :
  init_succeeds env = true ->
  temp_led_init m2j env jiffies d
  = (0,
     mod_timer_thermal (jiffies + m2j TIMEOUT)
       (mod_timer_blink (jiffies + m2j TIMEOUT)
          ((fun x => match init_reading env with
                     | Some t => set_temp t x
                     | None => pr_err ("Failed to get temperature" ++ nl) x
                     end)
             (gpio_request_array led_array
                (kernel_call (Acquire ProcFile)
                   (kernel_call (Acquire ProcFolder)
                      (kernel_call (Acquire (SysfsFile chrdev_kobj to_temp_red_attr))
                         (kernel_call (Acquire (SysfsFile chrdev_kobj to_temp_yellow_attr))
                            (kernel_call (Acquire (SysfsFile chrdev_kobj to_temp_green_attr))
                               (acquire_if (kobject_created env) Kobject
                                  (kernel_call (Acquire DevNode)
                                     (kernel_call (Acquire DevClass)
                                        (kernel_call (Acquire Cdev)
                                           (kernel_call (Acquire ChrdevRegion)
                                              (set_data_size 0 (set_is_open 0 d)))))))))))))))).
Proof.
  intros H.
  destruct (init_succeeds_inv env H)
    as (H1 & H2 & H3 & H4 & H5 & H6 & H7 & H8 & H9 & H10 & H11).
  unfold temp_led_init, thermal_zone_get_temp.
  rewrite H1, H2, H3, H4, H5, H6, H7, H8, H9, H10, H11.
  cbn [negb]. cbv beta iota zeta.
  destruct (init_reading env); reflexivity.
Qed.

(** X14: when every registration succeeds, [temp_led_init] returns 0 with
    all three LED lines driven high, the loopback device closed and empty,
    the first reading stored, and both timers set [TIMEOUT] (5000 ms) ahead:
    the LEDs stay lit until the first sample and the first blink firing,
    five seconds after the load. Nothing is released on the way. *)
Theorem temp_led_init_success :
  forall (msecs_to_jiffies : Z -> Z) (env : init_env) (jiffies : Z) (d : driver),
    init_succeeds env = true ->
    fst (temp_led_init msecs_to_jiffies env jiffies d) = 0
    /\ timer_blink (snd (temp_led_init msecs_to_jiffies env jiffies d))
       = Some (to_size_t (jiffies + msecs_to_jiffies 5000))
    /\ timer_thermal (snd (temp_led_init msecs_to_jiffies env jiffies d))
       = Some (to_size_t (jiffies + msecs_to_jiffies 5000))
    /\ (forall l, gpio_level (led_line l)
                    (snd (temp_led_init msecs_to_jiffies env jiffies d)) = Some 1)
    /\ temp (snd (temp_led_init msecs_to_jiffies env jiffies d))
       = sampled (init_reading env) d
    /\ is_open (snd (temp_led_init msecs_to_jiffies env jiffies d)) = 0
    /\ data_size (snd (temp_led_init msecs_to_jiffies env jiffies d)) = 0
    /\ filter is_release (kevents (snd (temp_led_init msecs_to_jiffies env jiffies d)))
       = filter is_release (kevents d)
    /\ In (Acquire GpioLines)
          (kevents (snd (temp_led_init msecs_to_jiffies env jiffies d))).
Proof.
  intros m2j env jiffies d H.
  rewrite (temp_led_init_success_eq m2j env jiffies d H).
  unfold acquire_if.
  destruct (init_reading env), (kobject_created env);
    cbn -[to_size_t String.append];
    repeat (split; [reflexivity|]);
    (split; [intros l; destruct l; reflexivity|]);
    repeat (split; [reflexivity|]); repeat (try (left; reflexivity); right).
Qed.

Lemma temp_led_init_success_witness :
  init_succeeds env_ok = true
  /\ fst (temp_led_init hz100 env_ok 1000 module_image) = 0
  /\ timer_thermal (snd (temp_led_init hz100 env_ok 1000 module_image)) = Some 1500
  /\ gpio_level GPIO_26 (snd (temp_led_init hz100 env_ok 1000 module_image)) = Some 1.
Proof.
  assert (H : init_succeeds env_ok = true) by reflexivity.
  split; [exact H|].
  destruct (temp_led_init_success hz100 env_ok 1000 module_image H)
    as (H0 & _ & Ht & Hl & _).
  split; [exact H0 | split; [exact Ht | exact (Hl GREEN)]].
Defined.

(** One test of [temp_led_init] at a time, in program order: the branch that
    leaves the function is closed, the other goes on. *)
Ltac init_split c :=
  destruct c; cbn [negb andb orb]; cbv beta iota zeta;
  try solve [ intros _; repeat split; reflexivity
            | intros Hx; discriminate Hx ].

Ltac init_walk env :=
  init_split (alloc_chrdev_region_ret env <? 0);
  init_split (cdev_add_ret env <? 0);
  init_split (class_create_is_err env);
  init_split (device_create_is_err env);
  init_split (sysfs_create_green_ret env =? 0);
  init_split (sysfs_create_yellow_ret env =? 0);
  init_split (sysfs_create_red_ret env =? 0);
  init_split (proc_mkdir_null env);
  init_split (proc_create_null env);
  init_split (gpio_request_array_ret env =? 0);
  init_split (tz_null env).

(** X15: unless every step of [temp_led_init] succeeds, neither timer is
    armed and the stored temperature is not touched: a load that stopped
    half way never fires a callback. *)
Theorem temp_led_init_failure_arms_nothing :
  forall (msecs_to_jiffies : Z -> Z) (env : init_env) (jiffies : Z) (d : driver),
    init_succeeds env = false ->
    timer_blink (snd (temp_led_init msecs_to_jiffies env jiffies d)) = timer_blink d
    /\ timer_thermal (snd (temp_led_init msecs_to_jiffies env jiffies d))
       = timer_thermal d
    /\ temp (snd (temp_led_init msecs_to_jiffies env jiffies d)) = temp d
    /\ flag_timer (snd (temp_led_init msecs_to_jiffies env jiffies d)) = flag_timer d.
Proof.
  intros m2j env jiffies d.
  unfold init_succeeds, temp_led_init, acquire_if.
  destruct (kobject_created env); init_walk env.
Qed.

Lemma temp_led_init_failure_arms_nothing_witness :
  init_succeeds env_gpio_busy = false
  /\ timer_blink (snd (temp_led_init hz100 env_gpio_busy 1000 module_image)) = None
  /\ timer_thermal (snd (temp_led_init hz100 env_gpio_busy 1000 module_image)) = None.
Proof.
  assert (H : init_succeeds env_gpio_busy = false) by reflexivity.
  split; [exact H|].
  destruct (temp_led_init_failure_arms_nothing hz100 env_gpio_busy 1000 module_image H)
    as (Hb & Ht & _).
  split; [exact Hb | exact Ht].
Defined.

(** X16: when the device number was allocated but [cdev_add],
    [class_create], [device_create] or one of the three [sysfs_create_file]
    calls fails, [temp_led_init] runs its error labels and returns 0: the
    load is reported as successful although the LED lines were never
    requested and no timer runs. *)
Theorem temp_led_init_early_failure_returns_0 :
  forall (msecs_to_jiffies : Z -> Z) (env : init_env) (jiffies : Z) (d : driver),
    (alloc_chrdev_region_ret env <? 0) = false ->
    (cdev_add_ret env <? 0)
    || class_create_is_err env
    || device_create_is_err env
    || negb (sysfs_create_green_ret env =? 0)
    || negb (sysfs_create_yellow_ret env =? 0)
    || negb (sysfs_create_red_ret env =? 0) = true ->
    fst (temp_led_init msecs_to_jiffies env jiffies d) = 0
    /\ gpio_writes (snd (temp_led_init msecs_to_jiffies env jiffies d)) = gpio_writes d
    /\ timer_blink (snd (temp_led_init msecs_to_jiffies env jiffies d)) = timer_blink d
    /\ timer_thermal (snd (temp_led_init msecs_to_jiffies env jiffies d))
       = timer_thermal d.
Proof.
  intros m2j env jiffies d Halloc.
  unfold temp_led_init, acquire_if. rewrite Halloc. cbv beta iota zeta.
  destruct (kobject_created env);
    init_split (cdev_add_ret env <? 0);
    init_split (class_create_is_err env);
    init_split (device_create_is_err env);
    init_split (sysfs_create_green_ret env =? 0);
    init_split (sysfs_create_yellow_ret env =? 0);
    init_split (sysfs_create_red_ret env =? 0).
Qed.

Lemma temp_led_init_early_failure_returns_0_witness :
  (alloc_chrdev_region_ret env_no_cdev <? 0) = false
  /\ fst (temp_led_init hz100 env_no_cdev 1000 module_image) = 0
  /\ gpio_writes (snd (temp_led_init hz100 env_no_cdev 1000 module_image)) = [].
Proof.
  assert (H1 : (alloc_chrdev_region_ret env_no_cdev <? 0) = false) by reflexivity.
  split; [exact H1|].
  destruct (temp_led_init_early_failure_returns_0 hz100 env_no_cdev 1000 module_image H1)
    as (H0 & Hw & _); [reflexivity|].
  split; [exact H0 | exact Hw].
Defined.

(** X17: what the error labels of [temp_led_init] leave behind, starting
    from a kernel that holds nothing for the module. Only a failure of
    [device_create] is unwound completely. After a failure of [cdev_add] or
    of [class_create] the device number stays allocated, since neither path
    reaches [unregister_chrdev_region]; after a failure of the first
    [sysfs_create_file] the device node stays, since no label calls
    [device_destroy]. *)
Theorem temp_led_init_error_labels :
  forall (msecs_to_jiffies : Z -> Z) (env : init_env) (jiffies : Z) (d : driver),
    kevents d = [] ->
    (alloc_chrdev_region_ret env <? 0) = false ->
    ((cdev_add_ret env <? 0) = true ->
     held (snd (temp_led_init msecs_to_jiffies env jiffies d)) = [ChrdevRegion])
    /\ ((cdev_add_ret env <? 0) = false ->
        class_create_is_err env = true ->
        held (snd (temp_led_init msecs_to_jiffies env jiffies d)) = [ChrdevRegion])
    /\ ((cdev_add_ret env <? 0) = false ->
        class_create_is_err env = false ->
        device_create_is_err env = true ->
        held (snd (temp_led_init msecs_to_jiffies env jiffies d)) = [])
    /\ ((cdev_add_ret env <? 0) = false ->
        class_create_is_err env = false ->
        device_create_is_err env = false ->
        (sysfs_create_green_ret env =? 0) = false ->
        held (snd (temp_led_init msecs_to_jiffies env jiffies d)) = [DevNode]).
Proof.
  intros m2j env jiffies d Hk Halloc.
  unfold temp_led_init, acquire_if. rewrite Halloc. cbv beta iota zeta.
  repeat split.
  - intros H1. rewrite H1.
    unfold held. cbn -[String.append resource_eq_dec]. rewrite Hk. reflexivity.
  - intros H1 H2. rewrite H1, H2.
    unfold held. cbn -[String.append resource_eq_dec]. rewrite Hk. reflexivity.
  - intros H1 H2 H3. rewrite H1, H2, H3.
    unfold held. cbn -[String.append resource_eq_dec]. rewrite Hk. reflexivity.
  - intros H1 H2 H3 H4. rewrite H1, H2, H3, H4. cbn [negb].
    unfold held. destruct (kobject_created env);
      cbn -[String.append resource_eq_dec]; rewrite Hk; reflexivity.
Qed.

Lemma temp_led_init_error_labels_witness :
  kevents module_image = []
  /\ (alloc_chrdev_region_ret env_no_cdev <? 0) = false
  /\ held (snd (temp_led_init hz100 env_no_cdev 1000 module_image)) = [ChrdevRegion].
Proof.
  assert (H0 : kevents module_image = []) by reflexivity.
  assert (H1 : (alloc_chrdev_region_ret env_no_cdev <? 0) = false) by reflexivity.
  split; [exact H0 | split; [exact H1|]].
  destruct (temp_led_init_error_labels hz100 env_no_cdev 1000 module_image H0 H1)
    as (Hc & _).
  apply Hc. reflexivity.
Defined.

(** X18: when the character device and the attributes are in place but a
    proc entry cannot be created, [temp_led_init] returns [-ENOMEM] and
    leaves the character device registered: a failing [proc_mkdir] releases
    nothing, a failing [proc_create] removes the proc folder and nothing
    else. *)
Theorem temp_led_init_proc_failure :
  forall (msecs_to_jiffies : Z -> Z) (env : init_env) (jiffies : Z) (d : driver),
    negb (alloc_chrdev_region_ret env <? 0)
    && negb (cdev_add_ret env <? 0)
    && negb (class_create_is_err env)
    && negb (device_create_is_err env)
    && (sysfs_create_green_ret env =? 0)
    && (sysfs_create_yellow_ret env =? 0)
    && (sysfs_create_red_ret env =? 0) = true ->
    (proc_mkdir_null env = true ->
     fst (temp_led_init msecs_to_jiffies env jiffies d) = - ENOMEM
     /\ filter is_release (kevents (snd (temp_led_init msecs_to_jiffies env jiffies d)))
        = filter is_release (kevents d)
     /\ In (Acquire DevNode) (kevents (snd (temp_led_init msecs_to_jiffies env jiffies d))))
    /\ (proc_mkdir_null env = false ->
        proc_create_null env = true ->
        fst (temp_led_init msecs_to_jiffies env jiffies d) = - ENOMEM
        /\ filter is_release
             (kevents (snd (temp_led_init msecs_to_jiffies env jiffies d)))
           = Release ProcFolder :: filter is_release (kevents d)
        /\ In (Acquire DevNode)
              (kevents (snd (temp_led_init msecs_to_jiffies env jiffies d)))).
Proof.
  intros m2j env jiffies d H.
  rewrite !andb_true_iff, !negb_true_iff in H.
  destruct H as ((((((H1 & H2) & H3) & H4) & H5) & H6) & H7).
  unfold temp_led_init, acquire_if.
  rewrite H1, H2, H3, H4, H5, H6, H7. cbn [negb]. cbv beta iota zeta.
  split.
  - intros H8. rewrite H8.
    destruct (kobject_created env); cbn -[String.append];
      (split; [reflexivity|]); (split; [reflexivity|]);
      repeat (try (left; reflexivity); right).
  - intros H8 H9. rewrite H8, H9.
    destruct (kobject_created env); cbn -[String.append];
      (split; [reflexivity|]); (split; [reflexivity|]);
      repeat (try (left; reflexivity); right).
Qed.

Lemma temp_led_init_proc_failure_witness :
  fst (temp_led_init hz100 env_no_proc_file 1000 module_image) = - ENOMEM
  /\ filter is_release
       (kevents (snd (temp_led_init hz100 env_no_proc_file 1000 module_image)))
     = [Release ProcFolder].
Proof.
  destruct (temp_led_init_proc_failure hz100 env_no_proc_file 1000 module_image)
    as (_ & Hc); [reflexivity|].
  destruct Hc as (Hr & Hf & _); [reflexivity | reflexivity |].
  split; [exact Hr | exact Hf].
Defined.

(** X19: unloading after a successful load deletes both timers and
    releases the LED lines, both proc entries, the device node, the class,
    the cdev, the device number and the kobject. The three attribute files
    are the one thing it does not ask for where they are: its
    [sysfs_remove_file] calls name [kernel_kobj], not the [chrdev_kobj] the
    files were created under. *)
Theorem temp_led_exit_after_init :
  forall (msecs_to_jiffies : Z -> Z) (env : init_env) (jiffies : Z) (d : driver),
    init_succeeds env = true ->
    kevents d = [] ->
    timer_blink (temp_led_exit (snd (temp_led_init msecs_to_jiffies env jiffies d)))
    = None
    /\ timer_thermal (temp_led_exit (snd (temp_led_init msecs_to_jiffies env jiffies d)))
       = None
    /\ held (temp_led_exit (snd (temp_led_init msecs_to_jiffies env jiffies d)))
       = [SysfsFile chrdev_kobj to_temp_red_attr;
          SysfsFile chrdev_kobj to_temp_yellow_attr;
          SysfsFile chrdev_kobj to_temp_green_attr]
    /\ forall a,
        In (Release (SysfsFile kernel_kobj a))
           (kevents (temp_led_exit (snd (temp_led_init msecs_to_jiffies env jiffies d))))
        /\ ~ In (Release (SysfsFile chrdev_kobj a))
               (kevents (temp_led_exit
                           (snd (temp_led_init msecs_to_jiffies env jiffies d)))).
Proof.
  intros m2j env jiffies d H Hk.
  rewrite (temp_led_init_success_eq m2j env jiffies d H).
  unfold acquire_if, held.
  destruct (init_reading env), (kobject_created env);
    cbn -[to_size_t String.append resource_eq_dec]; rewrite Hk;
    (split; [reflexivity|]); (split; [reflexivity|]); (split; [reflexivity|]);
    intros a; (split; [destruct a; cbn; tauto|]);
    intros Hin; cbn in Hin;
    repeat match goal with
           | H : _ \/ _ |- _ => destruct H as [H|H]; [discriminate H|]
           end; exact Hin.
Qed.

Lemma temp_led_exit_after_init_witness :
  init_succeeds env_ok = true /\ kevents module_image = []
  /\ timer_blink (temp_led_exit booted) = None
  /\ timer_thermal (temp_led_exit booted) = None.
Proof.
  assert (H : init_succeeds env_ok = true) by reflexivity.
  assert (H0 : kevents module_image = []) by reflexivity.
  split; [exact H | split; [exact H0|]].
  destruct (temp_led_exit_after_init hz100 env_ok 1000 module_image H H0)
    as (Hb & Ht & _).
  split; [exact Hb | exact Ht].
Defined.
